(** * Gabad-Blogs: the Flask blog application of [main.py]

    A shallow embedding of the request handlers of [main.py] (registration,
    login, comments, and the admin-only post management) as state-passing
    functions over the three tables of the schema, followed by the
    properties of the specification.

    Conventions of the embedding:
    - a table is the list of its rows in insertion order; [Model.query.all()]
      is the list, [Model.query.get(pk)] and [filter_by(...).first()] are
      [find] on it;
    - a view function is a [View]: it takes the application state (database,
      login session, flashed messages) and returns the response together with
      the new state; decorators are functions from [View] to [View];
    - [db.session.add]/[delete] followed by [db.session.commit()] is one
      function on the database that either yields the new database or the
      exception of the failed flush (the session is then rolled back, that is,
      the database is left as it was);
    - what [main.py] takes from its environment is an explicit argument: the
      submitted form with the verdict of its validators (the module [forms]
      is not part of the sources), the salt drawn by
      [generate_password_hash], and the clock read by [datetime.now()]. *)

From Stdlib Require Import ZArith List String Ascii Bool Lia DecimalString.
Import ListNotations.

Open Scope string_scope.
Open Scope list_scope.
Open Scope Z_scope.

(** ** Tables (main.py, lines 35-69) *)

Module User.
Record t := mk {
  id : Z;
  email : string;
  password : string;
  name : string
}.
End User.

Module BlogPost.
Record t := mk {
  id : Z;
  title : string;
  subtitle : string;
  date : string;
  body : string;
  img_url : string;
  author_id : option Z
}.
End BlogPost.

Module Comment.
Record t := mk {
  id : Z;
  author_id : option Z;
  post_id : option Z;
  text : string
}.
End Comment.

Record Database := mkDatabase {
  users : list User.t;
  blog_posts : list BlogPost.t;
  comments : list Comment.t
}.

(** [db.create_all()] on a fresh database. *)
Definition create_all : Database := mkDatabase [] [] [].

(** The integer primary key given to a new row: one more than the largest
    key of the table, 1 for an empty table. *)
Definition next_id (ids : list Z) : Z := 1 + fold_right Z.max 0 ids.

Definition opt_eqb (a b : option Z) : bool :=
  match a, b with
  | Some x, Some y => x =? y
  | None, None => true
  | _, _ => false
  end.

(** ** Queries *)

(** [User.query.get(user_id)] *)
Definition User_query_get (d : Database) (user_id : Z) : option User.t :=
  find (fun u => User.id u =? user_id) (users d).

(** [User.query.filter_by(email=email).first()] *)
Definition User_query_filter_by_email_first (d : Database) (email : string)
  : option User.t :=
  find (fun u => String.eqb (User.email u) email) (users d).

(** [BlogPost.query.get(index)] *)
Definition BlogPost_query_get (d : Database) (index : Z) : option BlogPost.t :=
  find (fun p => BlogPost.id p =? index) (blog_posts d).

(** [BlogPost.query.all()] *)
Definition BlogPost_query_all (d : Database) : list BlogPost.t := blog_posts d.

(** ** Exceptions and commits *)

Inductive Exception :=
| AttributeError
| UnmappedInstanceError
| IntegrityError.

(** [db.session.add(User(email=.., password=.., name=..)); db.session.commit()].
    The column [email] is declared [unique=True] (line 39). *)
Definition add_user (d : Database) (email password name : string)
  : Exception + Database :=
  if existsb (fun u => String.eqb (User.email u) email) (users d)
  then inl IntegrityError
  else inr (mkDatabase
              (users d ++ [User.mk (next_id (map User.id (users d)))
                                   email password name])
              (blog_posts d) (comments d)).

(** [db.session.add(BlogPost(...)); db.session.commit()].
    The column [title] is declared [unique=True] (line 49). *)
Definition add_blog_post (d : Database)
    (title subtitle date body img_url : string) (author_id : option Z)
  : Exception + Database :=
  if existsb (fun p => String.eqb (BlogPost.title p) title) (blog_posts d)
  then inl IntegrityError
  else inr (mkDatabase
              (users d)
              (blog_posts d ++
                 [BlogPost.mk (next_id (map BlogPost.id (blog_posts d)))
                              title subtitle date body img_url author_id])
              (comments d)).

(** [db.session.add(Comment(text=.., comment_author=.., user_comments=..));
    db.session.commit()].  Both foreign keys are nullable and no column of
    [comments] is unique, so the commit has no constraint to violate. *)
Definition add_comment (d : Database) (text : string)
    (comment_author : option User.t) (user_comments : option BlogPost.t)
  : Database :=
  mkDatabase (users d) (blog_posts d)
    (comments d ++
       [Comment.mk (next_id (map Comment.id (comments d)))
                   (option_map User.id comment_author)
                   (option_map BlogPost.id user_comments)
                   text]).

(** The five assignments of [edit_post] (lines 239-243) on the loaded row. *)
Definition assign_post (post : BlogPost.t)
    (title subtitle img_url : string) (author : option Z) (body : string)
  : BlogPost.t :=
  BlogPost.mk (BlogPost.id post) title subtitle (BlogPost.date post)
              body img_url author.

(** [db.session.commit()] after the five attributes of the loaded object
    [post] were assigned: the flush writes the assigned columns to the row of
    the object's key; a title already carried by another row violates the
    unique constraint. *)
Definition update_blog_post (d : Database) (post : BlogPost.t)
  : Exception + Database :=
  if existsb (fun p => negb (BlogPost.id p =? BlogPost.id post)
                       && String.eqb (BlogPost.title p) (BlogPost.title post))
             (blog_posts d)
  then inl IntegrityError
  else inr (mkDatabase
              (users d)
              (map (fun p => if BlogPost.id p =? BlogPost.id post
                             then assign_post p (BlogPost.title post)
                                              (BlogPost.subtitle post)
                                              (BlogPost.img_url post)
                                              (BlogPost.author_id post)
                                              (BlogPost.body post)
                             else p) (blog_posts d))
              (comments d)).

(** [db.session.delete(post); db.session.commit()].  The relationship
    [BlogPost.blog_comments] (line 56) is declared without a delete cascade:
    at the flush the ORM de-associates the comments of the deleted post by
    setting their foreign key [post_id] to NULL, then deletes the post row.
    No comment row is deleted. *)
Definition detach_comment (post : BlogPost.t) (c : Comment.t) : Comment.t :=
  if opt_eqb (Comment.post_id c) (Some (BlogPost.id post))
  then Comment.mk (Comment.id c) (Comment.author_id c) None (Comment.text c)
  else c.

Definition delete_blog_post (d : Database) (post : BlogPost.t) : Database :=
  mkDatabase
    (users d)
    (filter (fun p => negb (BlogPost.id p =? BlogPost.id post)) (blog_posts d))
    (map (detach_comment post) (comments d)).

(** ** Password hashing (werkzeug.security), kept abstract *)

Class PasswordHashing := {
  (** [generate_password_hash(password, method=.., salt_length=8)], with the
      salt it draws as the last argument *)
  generate_password_hash : string -> string -> string -> string;
  (** [check_password_hash(pwhash, password)] *)
  check_password_hash : string -> string -> bool
}.

(** A hashing that stores the salt in front of the password; it only
    serves to instantiate the statements on concrete data. *)
Definition toy_hashing : PasswordHashing :=
  {| generate_password_hash := fun password _ salt =>
       (salt ++ "$" ++ password)%string;
     check_password_hash := fun pwhash password =>
       existsb (fun n => String.eqb (substring n (String.length pwhash) pwhash)
                                    ("$" ++ password)%string)
               (seq 0 (String.length pwhash)) |}.

(** ** Time (datetime) *)

Record datetime := mkDatetime { year : Z; month : Z; day : Z }.

Definition month_name (m : Z) : string :=
  match m with
  | 1 => "January" | 2 => "February" | 3 => "March" | 4 => "April"
  | 5 => "May" | 6 => "June" | 7 => "July" | 8 => "August"
  | 9 => "September" | 10 => "October" | 11 => "November" | _ => "December"
  end.

Definition decimal (n : Z) : string :=
  NilZero.string_of_uint (N.to_uint (Z.to_N n)).

Definition two_digits (n : Z) : string :=
  if n <? 10 then ("0" ++ decimal n)%string else decimal n.

(** [strftime] for the directives used by the application: [%B] (full month
    name), [%d] (day of the month, zero-padded), [%Y] (year) and [%%]. *)
Definition directive (dt : datetime) (c : ascii) : string :=
  if Ascii.eqb c "B" then month_name (month dt)
  else if Ascii.eqb c "d" then two_digits (day dt)
  else if Ascii.eqb c "Y" then decimal (year dt)
  else if Ascii.eqb c "%" then "%"
  else String "%" (String c "").

Fixpoint strftime (dt : datetime) (format : string) : string :=
  match format with
  | EmptyString => ""
  | String c rest =>
      if Ascii.eqb c "%" then
        match rest with
        | String c' rest' => (directive dt c' ++ strftime dt rest')%string
        | EmptyString => "%"
        end
      else String c (strftime dt rest)
  end.

(** ** Forms (flask_wtf)

    The module [forms] is not part of the sources.  A form is the request
    method, the submitted field data, and the verdict of the validators. *)

Inductive Method := GET | HEAD | POST.

Record Form (A : Type) := mkForm {
  method : Method;
  data : A;
  validate : bool
}.
Arguments mkForm {A}.
Arguments method {A}.
Arguments data {A}.
Arguments validate {A}.

Definition is_submitted (m : Method) : bool :=
  match m with POST => true | _ => false end.

Definition validate_on_submit {A} (form : Form A) : bool :=
  is_submitted (method form) && validate form.

Module RegisterForm.
Record t := mk { name : string; email : string; password : string }.
End RegisterForm.

Module LoginForm.
Record t := mk { email : string; password : string }.
End LoginForm.

Module CommentForm.
Record t := mk { comment : string }.
End CommentForm.

(** The field [author] of the post form holds a reference to a user row (its
    key), or nothing. *)
Module CreatePostForm.
Record t := mk {
  title : string;
  subtitle : string;
  img_url : string;
  author : option Z;
  body : string
}.
End CreatePostForm.

(** ** Application state and responses *)

Record State := mkState {
  db : Database;
  (** the user id kept in the login session by [login_user] *)
  session : option Z;
  (** the messages passed to [flash], oldest first *)
  flashes : list string
}.

Definition initial_state : State := mkState create_all None [].

(** [current_user]: the row found by the user loader, or flask_login's
    [AnonymousUserMixin], which has [is_authenticated = False] and no
    attribute [id]. *)
Inductive Principal :=
| Authenticated (u : User.t)
| AnonymousUserMixin.

(** The user loader (lines 88-90). *)
Definition load_user (d : Database) (user_id : Z) : option User.t :=
  User_query_get d user_id.

Definition current_user (st : State) : Principal :=
  match session st with
  | Some user_id =>
      match load_user (db st) user_id with
      | Some u => Authenticated u
      | None => AnonymousUserMixin
      end
  | None => AnonymousUserMixin
  end.

Definition is_authenticated (p : Principal) : bool :=
  match p with Authenticated _ => true | AnonymousUserMixin => false end.

(** [current_user.id] *)
Definition principal_id (p : Principal) : Exception + Z :=
  match p with
  | Authenticated u => inr (User.id u)
  | AnonymousUserMixin => inl AttributeError
  end.

Inductive Endpoint :=
| ep_login
| ep_get_all_posts
| ep_show_post (index : Z).

Inductive Page :=
| index_html (all_posts : list BlogPost.t) (logged_in : bool)
| register_html (form : Form RegisterForm.t) (logged_in : bool)
| login_html (form : Form LoginForm.t) (logged_in : bool)
| post_html (post : option BlogPost.t) (logged_in : bool)
            (form : Form CommentForm.t) (current_user : Principal) (num : Z)
| about_html (logged_in : bool)
| contact_html (logged_in : bool)
| make_post_html (form : Form CreatePostForm.t) (is_edit : bool)
                 (logged_in : bool).

Inductive Response :=
| render_template (page : Page)
| redirect (url_for : Endpoint)
| abort (code : Z) (description : string)
| raise (e : Exception).

Definition View : Type := State -> Response * State.

Definition flash (message : string) (st : State) : State :=
  mkState (db st) (session st) (flashes st ++ [message]).

Definition commit (d : Database) (st : State) : State :=
  mkState d (session st) (flashes st).

Definition login_user (u : User.t) (st : State) : State :=
  mkState (db st) (Some (User.id u)) (flashes st).

Definition logout_user (st : State) : State :=
  mkState (db st) None (flashes st).

(** ** Decorators *)

(** [admin_only] (lines 77-84). *)
Definition admin_only (func : View) : View :=
  fun st =>
    match principal_id (current_user st) with
    | inl e => (raise e, st)
    | inr id =>
        if negb (id =? 1)
        then (abort 403 "This page is not found at all", st)
        else func st
    end.

(** flask_login's [login_required]; the login manager has no [login_view],
    so an anonymous request is answered with 401. *)
Definition login_required (func : View) : View :=
  fun st =>
    if is_authenticated (current_user st) then func st
    else (abort 401 "Unauthorized", st).

(** ** View functions *)

Section Views.
Context {hashing : PasswordHashing}.

(** [get_all_posts] (lines 94-97). *)
Definition get_all_posts : View :=
  fun st =>
    let posts := BlogPost_query_all (db st) in
    (render_template
       (index_html posts (is_authenticated (current_user st))), st).

(** [register] (lines 101-126). *)
Definition register (form : Form RegisterForm.t) (salt : string) : View :=
  fun st =>
    if validate_on_submit form then
      match User_query_filter_by_email_first
              (db st) (RegisterForm.email (data form)) with
      | Some _ =>
          (redirect ep_login,
           flash "This email has been registered. Login with the email" st)
      | None =>
          let name := RegisterForm.name (data form) in
          let email := RegisterForm.email (data form) in
          let password := RegisterForm.password (data form) in
          let hash_func :=
            generate_password_hash password "pbkdf2:sha256" salt in
          match add_user (db st) email hash_func name with
          | inl e => (raise e, st)
          | inr d => (redirect ep_get_all_posts, commit d st)
          end
      end
    else
      (render_template
         (register_html form (is_authenticated (current_user st))), st).

(** [login] (lines 130-151). *)
Definition login (form : Form LoginForm.t) : View :=
  fun st =>
    let page st :=
      (render_template
         (login_html form (is_authenticated (current_user st))), st) in
    if validate_on_submit form then
      let email := LoginForm.email (data form) in
      let password := LoginForm.password (data form) in
      match User_query_filter_by_email_first (db st) email with
      | None =>
          (redirect ep_login,
           flash "This email does not exist. Please try again" st)
      | Some user =>
          if check_password_hash (User.password user) password
          then (redirect ep_get_all_posts, login_user user st)
          else page (flash "Password incorrect. Please try again" st)
      end
    else page st.

(** [logout] (lines 155-159). *)
Definition logout : View :=
  login_required
    (fun st => (redirect ep_get_all_posts, logout_user st)).

(** [show_post] (lines 163-190).  The [redirect(...)] of line 187 is an
    expression statement: its value is dropped and control reaches the
    [return render_template(...)] of line 189 for every caller. *)
Definition show_post (index : Z) (comment_form : Form CommentForm.t) : View :=
  fun st =>
    let requested_post := BlogPost_query_get (db st) index in
    if validate_on_submit comment_form then
      match current_user st with
      | AnonymousUserMixin =>
          (redirect ep_login,
           flash "You need to login or register to comment." st)
      | Authenticated user =>
          let text := CommentForm.comment (data comment_form) in
          let d := add_comment (db st) text (Some user) requested_post in
          (redirect (ep_show_post index), commit d st)
      end
    else
      let _ := if negb (is_authenticated (current_user st))
               then Some (redirect ep_login) else None in
      (render_template
         (post_html requested_post true comment_form (current_user st) index),
       st).

(** [about] and [contact] (lines 193-200). *)
Definition about : View :=
  fun st =>
    (render_template (about_html (is_authenticated (current_user st))), st).

Definition contact : View :=
  fun st =>
    (render_template (contact_html (is_authenticated (current_user st))), st).

(** [make_post] (lines 204-223). *)
Definition make_post (forms : Form CreatePostForm.t) (now : datetime) : View :=
  admin_only
    (fun st =>
       if validate_on_submit forms then
         match principal_id (current_user st) with
         | inl e => (raise e, st)
         | inr user_id =>
             match add_blog_post (db st)
                     (CreatePostForm.title (data forms))
                     (CreatePostForm.subtitle (data forms))
                     (strftime now "%B %d, %Y")
                     (CreatePostForm.body (data forms))
                     (CreatePostForm.img_url (data forms))
                     (Some user_id) with
             | inl e => (raise e, st)
             | inr d => (redirect ep_get_all_posts, commit d st)
             end
         end
       else (render_template (make_post_html forms false true), st)).

(** The form built at lines 231-237: the submitted data when there is
    any, the fields of the loaded post otherwise. *)
Definition prefill (post : BlogPost.t) (form : Form CreatePostForm.t)
  : Form CreatePostForm.t :=
  if is_submitted (method form) then form
  else mkForm (method form)
              (CreatePostForm.mk (BlogPost.title post)
                                 (BlogPost.subtitle post)
                                 (BlogPost.img_url post)
                                 (BlogPost.author_id post)
                                 (BlogPost.body post))
              (validate form).

(** [edit_post] (lines 227-247).  With no row of key [post_id], [post] is
    [None] and [post.title] at line 232 raises. *)
Definition edit_post (post_id : Z) (form : Form CreatePostForm.t) : View :=
  admin_only
    (fun st =>
       match BlogPost_query_get (db st) post_id with
       | None => (raise AttributeError, st)
       | Some post =>
           let edit_form := prefill post form in
           if validate_on_submit edit_form then
             let post :=
               assign_post post
                 (CreatePostForm.title (data edit_form))
                 (CreatePostForm.subtitle (data edit_form))
                 (CreatePostForm.img_url (data edit_form))
                 (CreatePostForm.author (data edit_form))
                 (CreatePostForm.body (data edit_form)) in
             match update_blog_post (db st) post with
             | inl e => (raise e, st)
             | inr d => (redirect (ep_show_post post_id), commit d st)
             end
           else
             (render_template (make_post_html edit_form true true), st)
       end).

(** [delete_post] (lines 251-258).  With no row of key [post_id],
    [db.session.delete(None)] raises. *)
Definition delete_post (post_id : Z) : View :=
  admin_only
    (fun st =>
       match BlogPost_query_get (db st) post_id with
       | None => (raise UnmappedInstanceError, st)
       | Some post =>
           (redirect ep_get_all_posts,
            commit (delete_blog_post (db st) post) st)
       end).

(** ** The application as a transition system *)

Inductive Request :=
| GetAllPosts
| Register (form : Form RegisterForm.t) (salt : string)
| Login (form : Form LoginForm.t)
| Logout
| ShowPost (index : Z) (comment_form : Form CommentForm.t)
| About
| Contact
| MakePost (forms : Form CreatePostForm.t) (now : datetime)
| EditPost (post_id : Z) (form : Form CreatePostForm.t)
| DeletePost (post_id : Z).

Definition dispatch (r : Request) : View :=
  match r with
  | GetAllPosts => get_all_posts
  | Register form salt => register form salt
  | Login form => login form
  | Logout => logout
  | ShowPost index comment_form => show_post index comment_form
  | About => about
  | Contact => contact
  | MakePost forms now => make_post forms now
  | EditPost post_id form => edit_post post_id form
  | DeletePost post_id => delete_post post_id
  end.

(** The state after serving the requests of [rs] in order. *)
Fixpoint serve (rs : list Request) (st : State) : State :=
  match rs with
  | [] => st
  | r :: rs' => serve rs' (snd (dispatch r st))
  end.

Inductive reachable : State -> Prop :=
| reachable_initial : reachable initial_state
| reachable_step r st : reachable st -> reachable (snd (dispatch r st)).

End Views.

(** ** Notions used by the statements *)

(** A response that reports [NotFound] (HTTP 404). *)
Definition NotFound (r : Response) : Prop :=
  exists description, r = abort 404 description.

(** A response that reports [Forbidden] (HTTP 403). *)
Definition Forbidden (r : Response) : Prop :=
  exists description, r = abort 403 description.

(** The pair (email, password) is registered: the row found for the email
    carries a hash that the password checks against. *)
Definition registered {hashing : PasswordHashing}
    (d : Database) (email password : string) : Prop :=
  exists u,
    User_query_filter_by_email_first d email = Some u /\
    check_password_hash (User.password u) password = true.

(** The row a successful registration inserts. *)
Definition new_user {hashing : PasswordHashing}
    (form : Form RegisterForm.t) (salt : string) (st : State) : User.t :=
  User.mk (next_id (map User.id (users (db st))))
          (RegisterForm.email (data form))
          (generate_password_hash (RegisterForm.password (data form))
                                  "pbkdf2:sha256" salt)
          (RegisterForm.name (data form)).

(** The law of werkzeug's hashing that [login] after [register] relies on. *)
Definition check_generate (hashing : PasswordHashing) : Prop :=
  forall password salt,
    check_password_hash
      (generate_password_hash password "pbkdf2:sha256" salt) password = true.

(** Primary keys of the table [user] are pairwise distinct. *)
Definition user_keys_unique (d : Database) : Prop :=
  NoDup (map User.id (users d)).

(** What [edit_post] may change in a row: everything but its key and its
    publish-date, and only in the row of key [post_id]. *)
Definition edited (post_id : Z) (p p' : BlogPost.t) : Prop :=
  BlogPost.id p' = BlogPost.id p /\
  BlogPost.date p' = BlogPost.date p /\
  (BlogPost.id p <> post_id -> p' = p).

(** What [delete_post] does to a comment: the comments of the deleted post
    lose their post reference and keep everything else; the others are
    untouched. *)
Definition detached (post_id : Z) (c c' : Comment.t) : Prop :=
  Comment.id c' = Comment.id c /\
  Comment.author_id c' = Comment.author_id c /\
  Comment.text c' = Comment.text c /\
  (Comment.post_id c = Some post_id -> Comment.post_id c' = None) /\
  (Comment.post_id c <> Some post_id -> c' = c).

(** The row a successful [make_post] inserts; its author is the principal
    the gate let through. *)
Definition new_post (forms : Form CreatePostForm.t) (now : datetime)
    (st : State) : BlogPost.t :=
  BlogPost.mk (next_id (map BlogPost.id (blog_posts (db st))))
              (CreatePostForm.title (data forms))
              (CreatePostForm.subtitle (data forms))
              (strftime now "%B %d, %Y")
              (CreatePostForm.body (data forms))
              (CreatePostForm.img_url (data forms))
              (Some 1).

(** How one request may change the table [blog_posts]: a row appended, rows
    edited in place, or the rows of one key removed. *)
Inductive posts_step (l l' : list BlogPost.t) : Prop :=
| posts_appended p : l' = l ++ [p] -> posts_step l l'
| posts_edited k : Forall2 (edited k) l l' -> posts_step l l'
| posts_deleted k :
    l' = filter (fun p => negb (BlogPost.id p =? k)) l -> posts_step l l'.

(** How one request may change the database: not at all, or by the commit
    of exactly one of [register], [show_post], [make_post], [edit_post] and
    [delete_post], the last three for the principal of id 1 only. *)
Inductive db_step {hashing : PasswordHashing} (st : State) (d' : Database)
  : Prop :=
| step_none : d' = db st -> db_step st d'
| step_register form salt :
    User_query_filter_by_email_first
      (db st) (RegisterForm.email (data form)) = None ->
    d' = mkDatabase (users (db st) ++ [new_user form salt st])
                    (blog_posts (db st)) (comments (db st)) ->
    db_step st d'
| step_comment u index text :
    current_user st = Authenticated u ->
    d' = add_comment (db st) text (Some u) (BlogPost_query_get (db st) index) ->
    db_step st d'
| step_make_post u forms now :
    current_user st = Authenticated u -> User.id u = 1 ->
    (forall p, In p (blog_posts (db st)) ->
               BlogPost.title p <> CreatePostForm.title (data forms)) ->
    d' = mkDatabase (users (db st))
                    (blog_posts (db st) ++ [new_post forms now st])
                    (comments (db st)) ->
    db_step st d'
| step_edit_post u post_id post fields :
    current_user st = Authenticated u -> User.id u = 1 ->
    BlogPost_query_get (db st) post_id = Some post ->
    update_blog_post (db st)
      (assign_post post (CreatePostForm.title fields)
                   (CreatePostForm.subtitle fields)
                   (CreatePostForm.img_url fields)
                   (CreatePostForm.author fields)
                   (CreatePostForm.body fields)) = inr d' ->
    db_step st d'
| step_delete_post u post_id post :
    current_user st = Authenticated u -> User.id u = 1 ->
    BlogPost_query_get (db st) post_id = Some post ->
    d' = delete_blog_post (db st) post ->
    db_step st d'.

(** A request that submits a form: its method is POST. *)
Definition submits (r : Request) : bool :=
  match r with
  | Register form _ => is_submitted (method form)
  | Login form => is_submitted (method form)
  | ShowPost _ comment_form => is_submitted (method comment_form)
  | MakePost forms _ => is_submitted (method forms)
  | EditPost _ form => is_submitted (method form)
  | GetAllPosts | Logout | About | Contact | DeletePost _ => false
  end.

(** What no request changes in a comment: its key, author and text. *)
Definition kept (c c' : Comment.t) : Prop :=
  Comment.id c' = Comment.id c /\
  Comment.author_id c' = Comment.author_id c /\
  Comment.text c' = Comment.text c.

(** The author of a comment is a row of [user]; its parent post is null or
    a row of [blog_posts]. *)
Definition refers (d : Database) (c : Comment.t) : Prop :=
  (exists u, In u (users d) /\ Comment.author_id c = Some (User.id u)) /\
  (Comment.post_id c = None \/
   exists p, In p (blog_posts d) /\ Comment.post_id c = Some (BlogPost.id p)).

(** The keys 1, 2, ..., n in this order. *)
Definition keys_upto (n : nat) : list Z := map Z.of_nat (seq 1 n).

(** The integrity of the database that every request maintains. *)
Record db_ok (d : Database) : Prop := mk_db_ok {
  ok_user_keys : map User.id (users d) = keys_upto (List.length (users d));
  ok_emails : NoDup (map User.email (users d));
  ok_post_keys : NoDup (map BlogPost.id (blog_posts d));
  ok_titles : NoDup (map BlogPost.title (blog_posts d));
  ok_comment_keys : NoDup (map Comment.id (comments d));
  ok_comments : forall c, In c (comments d) -> refers d c
}.

(** ** Sample data *)

Definition sample_admin : User.t :=
  User.mk 1 "admin@x.com" "saltsalt$pw0" "Admin".

Definition sample_alice : User.t :=
  User.mk 2 "a@x.com" "saltsalt$pw1" "Alice".

Definition sample_post1 : BlogPost.t :=
  BlogPost.mk 1 "Hello" "first" "April 05, 2024" "<p>hi</p>" "h.png" (Some 1).

Definition sample_post2 : BlogPost.t :=
  BlogPost.mk 2 "Again" "second" "May 17, 2024" "<p>more</p>" "a.png" (Some 1).

Definition sample_comment1 : Comment.t := Comment.mk 1 (Some 2) (Some 1) "nice".

Definition sample_comment2 : Comment.t := Comment.mk 2 (Some 2) (Some 2) "ok".

Definition sample_db : Database :=
  mkDatabase [sample_admin; sample_alice]
             [sample_post1; sample_post2]
             [sample_comment1; sample_comment2].

Definition as_anonymous : State := mkState sample_db None [].
Definition as_admin : State := mkState sample_db (Some 1) [].
Definition as_alice : State := mkState sample_db (Some 2) [].

Definition sample_post_form (m : Method) : Form CreatePostForm.t :=
  mkForm m (CreatePostForm.mk "Third" "sub" "t.png" (Some 1) "<p>3</p>") true.

Definition sample_comment_form (m : Method) : Form CommentForm.t :=
  mkForm m (CommentForm.mk "well said") true.

Definition sample_now : datetime := mkDatetime 2024 4 5.

(** A state reached from the empty database: Bob (id 1) and Alice (id 2)
    register, Bob logs in and writes two posts, Alice logs in and comments
    on the first, and Bob logs in again. *)
Definition sample_traffic : list Request :=
  [Register (mkForm POST (RegisterForm.mk "Bob" "b@x.com" "pw2") true)
            "saltsalt";
   Register (mkForm POST (RegisterForm.mk "Alice" "a@x.com" "pw1") true)
            "saltsalt";
   Login (mkForm POST (LoginForm.mk "b@x.com" "pw2") true);
   MakePost (mkForm POST (CreatePostForm.mk "Hello" "first" "h.png" None
                                            "<p>hi</p>") true) sample_now;
   MakePost (mkForm POST (CreatePostForm.mk "Again" "second" "a.png" None
                                            "<p>more</p>") true) sample_now;
   Login (mkForm POST (LoginForm.mk "a@x.com" "pw1") true);
   ShowPost 1 (sample_comment_form POST);
   Login (mkForm POST (LoginForm.mk "b@x.com" "pw2") true)].

Definition after_traffic : State :=
  serve (hashing := toy_hashing) sample_traffic initial_state.

(** The same state with Alice, the second account, logged in. *)
Definition alice_session : State :=
  serve (hashing := toy_hashing)
        [Login (mkForm POST (LoginForm.mk "a@x.com" "pw1") true)]
        after_traffic.

Definition sample_bob : User.t :=
  User.mk 1 "b@x.com" "saltsalt$pw2" "Bob".

Definition sample_register_bob : Form RegisterForm.t :=
  mkForm POST (RegisterForm.mk "Bob" "b@x.com" "pw2") true.

(** The comment Alice leaves on post 1 in [sample_traffic]. *)
Definition sample_comment_after : Comment.t :=
  Comment.mk 1 (Some 2) (Some 1) "well said".


(** * Properties *)

(** ** Lists, keys and lookups *)

Lemma find_app {A} (f : A -> bool) (l l' : list A) :
  find f (l ++ l') =
  match find f l with Some x => Some x | None => find f l' end.
Proof.
  induction l as [|a l IH]; simpl; [reflexivity|].
  destruct (f a); [reflexivity | exact IH].
Qed.

Lemma find_none_existsb {A} (f : A -> bool) (l : list A) :
  find f l = None -> existsb f l = false.
Proof.
  induction l as [|a l IH]; simpl; [reflexivity|].
  destruct (f a); [discriminate | exact IH].
Qed.

Lemma fold_max_upper (ids : list Z) (x : Z) :
  In x ids -> x <= fold_right Z.max 0 ids.
Proof.
  induction ids as [|a ids IH]; simpl; [tauto|].
  intros [-> | H]; [lia | specialize (IH H); lia].
Qed.

Lemma next_id_fresh (ids : list Z) : ~ In (next_id ids) ids.
Proof.
  intros H. apply fold_max_upper in H. unfold next_id in H. lia.
Qed.

Lemma find_by_unique_key {A} (key : A -> Z) (l : list A) (a : A) :
  NoDup (map key l) -> In a l ->
  find (fun x => key x =? key a) l = Some a.
Proof.
  induction l as [|b l IH]; simpl; [tauto|].
  intros Hnd Hin. inversion Hnd as [|k ks Hnotin Hnd']; subst.
  destruct Hin as [-> | Hin].
  - now rewrite Z.eqb_refl.
  - destruct (key b =? key a) eqn:E.
    + apply Z.eqb_eq in E. exfalso. apply Hnotin. rewrite E.
      now apply in_map.
    + now apply IH.
Qed.

Lemma find_key_sound {A} (key : A -> Z) (l : list A) (k : Z) (a : A) :
  find (fun x => key x =? k) l = Some a -> In a l /\ key a = k.
Proof.
  intros H. apply find_some in H. destruct H as [Hin E].
  split; [exact Hin | now apply Z.eqb_eq].
Qed.

Lemma find_filter_key {A} (key : A -> Z) (k k' : Z) (l : list A) :
  find (fun x => key x =? k) (filter (fun x => negb (key x =? k')) l) =
  if k =? k' then None else find (fun x => key x =? k) l.
Proof.
  induction l as [|a l IH]; simpl; [now destruct (k =? k')|].
  destruct (key a =? k') eqn:E'; simpl.
  - rewrite IH. destruct (k =? k') eqn:E; [reflexivity|].
    destruct (key a =? k) eqn:Ek; [|reflexivity].
    apply Z.eqb_eq in E', Ek. apply Z.eqb_neq in E. lia.
  - destruct (key a =? k) eqn:Ek; [|exact IH].
    destruct (k =? k') eqn:E; [|reflexivity].
    apply Z.eqb_eq in E, Ek. apply Z.eqb_neq in E'. lia.
Qed.

Lemma Forall2_map_right {A} (R : A -> A -> Prop) (g : A -> A) (l : list A) :
  (forall x, R x (g x)) -> Forall2 R l (map g l).
Proof. intros H. induction l; simpl; constructor; auto. Qed.

(** ** Case analysis and the current principal *)

(** Case analysis on the tests a view function goes through. *)
Ltac view_cases :=
  repeat (match goal with
          | |- context [if ?b then _ else _] => destruct b eqn:?
          | |- context [match ?x with _ => _ end] => destruct x eqn:?
          end; cbn [fst snd]).

Lemma current_user_flash (message : string) (st : State) :
  current_user (flash message st) = current_user st.
Proof. reflexivity. Qed.

Lemma current_user_anonymous_session (st : State) :
  session st = None -> current_user st = AnonymousUserMixin.
Proof. unfold current_user. now intros ->. Qed.

Lemma current_user_sound (st : State) (u : User.t) :
  current_user st = Authenticated u ->
  In u (users (db st)) /\ session st = Some (User.id u).
Proof.
  unfold current_user, load_user, User_query_get.
  destruct (session st) as [i|]; [|discriminate].
  destruct (find _ _) as [v|] eqn:E; [|discriminate].
  intros [= <-]. apply find_key_sound in E. destruct E as [Hin <-]. now split.
Qed.

Lemma BlogPost_query_get_key (d : Database) (index : Z) (p : BlogPost.t) :
  BlogPost_query_get d index = Some p ->
  In p (blog_posts d) /\ BlogPost.id p = index.
Proof. apply (find_key_sound BlogPost.id). Qed.

(** ** The admin gate *)

Lemma admin_only_admin (func : View) (st : State) (u : User.t) :
  current_user st = Authenticated u -> User.id u = 1 ->
  admin_only func st = func st.
Proof.
  intros Hu Hid. unfold admin_only. rewrite Hu. simpl. now rewrite Hid.
Qed.

Lemma admin_only_forbidden (func : View) (st : State) (u : User.t) :
  current_user st = Authenticated u -> User.id u <> 1 ->
  admin_only func st = (abort 403 "This page is not found at all", st).
Proof.
  intros Hu Hid. unfold admin_only. rewrite Hu. simpl.
  apply Z.eqb_neq in Hid. now rewrite Hid.
Qed.

Lemma admin_only_anonymous (func : View) (st : State) :
  current_user st = AnonymousUserMixin ->
  admin_only func st = (raise AttributeError, st).
Proof. intros Hu. unfold admin_only. now rewrite Hu. Qed.

(** The gate lets a request through only for the authenticated principal
    of id 1; in every other case the state is returned as it was. *)
Lemma admin_only_cases (func : View) (st : State) :
  (exists u, current_user st = Authenticated u /\ User.id u = 1 /\
             admin_only func st = func st) \/
  (snd (admin_only func st) = st /\
   (Forbidden (fst (admin_only func st)) \/
    fst (admin_only func st) = raise AttributeError)).
Proof.
  destruct (current_user st) as [u|] eqn:Hu.
  - destruct (Z.eq_dec (User.id u) 1) as [Hid|Hid].
    + left. exists u. repeat split; trivial. now apply admin_only_admin with u.
    + right. rewrite (admin_only_forbidden func st u Hu Hid). simpl.
      split; [reflexivity|]. left. now eexists.
  - right. rewrite (admin_only_anonymous func st Hu). simpl. now split; [|right].
Qed.

(** A property of the pair (state before, state after) that holds when the
    gate refuses and when the wrapped view runs holds for the gated view. *)
Lemma admin_only_preserves (P : State -> State -> Prop) (func : View)
    (st : State) :
  P st st -> P st (snd (func st)) -> P st (snd (admin_only func st)).
Proof.
  intros Hrefl Hfunc.
  destruct (admin_only_cases func st) as [(u & _ & _ & E) | [E _]];
    now rewrite E.
Qed.

(** A non-privileged authenticated principal gets 403 on the three admin
    routes, and nothing is mutated. *)
Lemma admin_routes_forbidden (st : State) (u : User.t) :
  current_user st = Authenticated u -> User.id u <> 1 ->
  (forall forms now,
      make_post forms now st = (abort 403 "This page is not found at all", st)) /\
  (forall post_id form,
      edit_post post_id form st = (abort 403 "This page is not found at all", st)) /\
  (forall post_id,
      delete_post post_id st = (abort 403 "This page is not found at all", st)).
Proof.
  intros Hu Hid. repeat split; intros;
    unfold make_post, edit_post, delete_post;
    now apply admin_only_forbidden with u.
Qed.

(** A change of the database by one of the three admin routes is the deed
    of the authenticated principal of id 1. *)
Lemma admin_routes_mutate_only_admin (st : State) :
  (forall forms now, db (snd (make_post forms now st)) <> db st ->
     exists u, current_user st = Authenticated u /\ User.id u = 1) /\
  (forall post_id form, db (snd (edit_post post_id form st)) <> db st ->
     exists u, current_user st = Authenticated u /\ User.id u = 1) /\
  (forall post_id, db (snd (delete_post post_id st)) <> db st ->
     exists u, current_user st = Authenticated u /\ User.id u = 1).
Proof.
  repeat split; intros; unfold make_post, edit_post, delete_post in *;
    match goal with
    | H : db (snd (admin_only ?f st)) <> _ |- _ =>
        destruct (admin_only_cases f st) as [(u & Hu & Hid & _) | [E _]];
        [exists u; now split | now rewrite E in H]
    end.
Qed.

(** C1 (the anonymous case, where the code departs from the claim): for an
    anonymous principal [current_user.id] raises [AttributeError] in the
    gate, so create-post, edit-post and delete-post end in an unhandled
    exception, not in the 403 of [abort]; the state is left as it was. *)
Theorem admin_routes_anonymous (st : State) :
  current_user st = AnonymousUserMixin ->
  (forall forms now,
      make_post forms now st = (raise AttributeError, st) /\
      ~ Forbidden (fst (make_post forms now st))) /\
  (forall post_id form,
      edit_post post_id form st = (raise AttributeError, st) /\
      ~ Forbidden (fst (edit_post post_id form st))) /\
  (forall post_id,
      delete_post post_id st = (raise AttributeError, st) /\
      ~ Forbidden (fst (delete_post post_id st))).
Proof.
  intros Hu. repeat split; intros;
    unfold make_post, edit_post, delete_post;
    rewrite (admin_only_anonymous _ st Hu); trivial;
    simpl; intros [description E]; discriminate E.
Qed.

(** ** Viewing a post and commenting *)

Lemma show_post_anonymous_submit (index : Z) (comment_form : Form CommentForm.t)
    (st : State) :
  validate_on_submit comment_form = true ->
  current_user st = AnonymousUserMixin ->
  show_post index comment_form st =
  (redirect ep_login, flash "You need to login or register to comment." st).
Proof. intros Hv Hu. unfold show_post. now rewrite Hv, Hu. Qed.

Lemma show_post_authenticated_submit (index : Z)
    (comment_form : Form CommentForm.t) (st : State) (u : User.t) :
  validate_on_submit comment_form = true ->
  current_user st = Authenticated u ->
  show_post index comment_form st =
  (redirect (ep_show_post index),
   commit (add_comment (db st) (CommentForm.comment (data comment_form))
                       (Some u) (BlogPost_query_get (db st) index)) st).
Proof. intros Hv Hu. unfold show_post. now rewrite Hv, Hu. Qed.

Lemma show_post_not_submitted (index : Z) (comment_form : Form CommentForm.t)
    (st : State) :
  validate_on_submit comment_form = false ->
  show_post index comment_form st =
  (render_template
     (post_html (BlogPost_query_get (db st) index) true comment_form
                (current_user st) index), st).
Proof. intros Hv. unfold show_post. now rewrite Hv. Qed.

Lemma show_post_tables (index : Z) (comment_form : Form CommentForm.t)
    (st : State) :
  users (db (snd (show_post index comment_form st))) = users (db st) /\
  blog_posts (db (snd (show_post index comment_form st))) = blog_posts (db st).
Proof. unfold show_post. view_cases; now split. Qed.

(** C4: a validated comment form submitted anonymously adds no row, flashes
    the notice and redirects to the login page; submitted by an
    authenticated principal it appends exactly one row to [comments], with
    a fresh key, the principal as author and the post looked up for the
    URL as parent, and redirects to the page of the same post. *)
Theorem show_post_comment (index : Z) (comment_form : Form CommentForm.t)
    (st : State) :
  validate_on_submit comment_form = true ->
  (current_user st = AnonymousUserMixin ->
   show_post index comment_form st =
   (redirect ep_login, flash "You need to login or register to comment." st) /\
   db (snd (show_post index comment_form st)) = db st) /\
  (forall u, current_user st = Authenticated u ->
   exists c,
     show_post index comment_form st =
     (redirect (ep_show_post index),
      commit (mkDatabase (users (db st)) (blog_posts (db st))
                         (comments (db st) ++ [c])) st) /\
     Comment.author_id c = Some (User.id u) /\
     Comment.post_id c =
       option_map BlogPost.id (BlogPost_query_get (db st) index) /\
     (forall p, BlogPost_query_get (db st) index = Some p ->
                Comment.post_id c = Some index) /\
     Comment.text c = CommentForm.comment (data comment_form) /\
     ~ In (Comment.id c) (map Comment.id (comments (db st)))).
Proof.
  intros Hv. split.
  - intros Hu. now rewrite (show_post_anonymous_submit _ _ _ Hv Hu).
  - intros u Hu. rewrite (show_post_authenticated_submit _ _ _ _ Hv Hu).
    eexists. split; [reflexivity|]. simpl. repeat split.
    + intros p Hp. rewrite Hp. simpl.
      now destruct (BlogPost_query_get_key _ _ _ Hp) as [_ ->].
    + apply next_id_fresh.
Qed.

(** C9: a request that submits nothing (GET) gets the rendered post page,
    not a redirect, whoever the caller is, anonymous included; the page is
    rendered with [logged_in=True] and the state is left as it was. *)
Theorem show_post_get_renders (index : Z) (comment_form : Form CommentForm.t)
    (st : State) :
  method comment_form = GET ->
  show_post index comment_form st =
  (render_template
     (post_html (BlogPost_query_get (db st) index) true comment_form
                (current_user st) index), st) /\
  (forall e, fst (show_post index comment_form st) <> redirect e).
Proof.
  intros Hm.
  assert (Hv : validate_on_submit comment_form = false).
  { unfold validate_on_submit. now rewrite Hm. }
  rewrite (show_post_not_submitted _ _ _ Hv). split; [reflexivity|].
  intros e. discriminate.
Qed.

(** C10: for a key no row of [blog_posts] carries, [show_post] reports no
    [NotFound]: without a submission it renders the page with [post=None],
    and a validated comment of an authenticated principal is committed
    with a null parent-post reference. *)
Theorem show_post_absent (index : Z) (comment_form : Form CommentForm.t)
    (st : State) :
  BlogPost_query_get (db st) index = None ->
  ~ NotFound (fst (show_post index comment_form st)) /\
  (validate_on_submit comment_form = false ->
   show_post index comment_form st =
   (render_template
      (post_html None true comment_form (current_user st) index), st)) /\
  (forall u,
     validate_on_submit comment_form = true ->
     current_user st = Authenticated u ->
     exists c,
       fst (show_post index comment_form st) = redirect (ep_show_post index) /\
       comments (db (snd (show_post index comment_form st))) =
       comments (db st) ++ [c] /\
       Comment.post_id c = None /\
       Comment.author_id c = Some (User.id u) /\
       Comment.text c = CommentForm.comment (data comment_form)).
Proof.
  intros Hnone. repeat split.
  - intros [description E]. unfold show_post in E.
    destruct (validate_on_submit comment_form); [|discriminate E].
    destruct (current_user st); discriminate E.
  - intros Hv. now rewrite (show_post_not_submitted _ _ _ Hv), Hnone.
  - intros u Hv Hu. rewrite (show_post_authenticated_submit _ _ _ _ Hv Hu), Hnone.
    eexists. simpl. repeat split.
Qed.

(** ** Posts: creation, edition, deletion *)

Lemma strftime_long_date (now : datetime) :
  strftime now "%B %d, %Y" =
  (month_name (month now) ++ " " ++ two_digits (day now) ++ ", "
   ++ decimal (year now))%string.
Proof.
  simpl. unfold directive. simpl.
  replace (decimal (year now) ++ "")%string with (decimal (year now));
    [reflexivity|].
  induction (decimal (year now)) as [|c s IH]; simpl; [reflexivity|].
  now rewrite <- IH.
Qed.

Lemma edited_refl (k : Z) (l : list BlogPost.t) : Forall2 (edited k) l l.
Proof.
  rewrite <- (map_id l) at 2. apply Forall2_map_right.
  intros p. now repeat split.
Qed.

Lemma edited_find (k index : Z) (l l' : list BlogPost.t) (p p' : BlogPost.t) :
  Forall2 (edited k) l l' ->
  find (fun x => BlogPost.id x =? index) l = Some p ->
  find (fun x => BlogPost.id x =? index) l' = Some p' ->
  edited k p p'.
Proof.
  induction 1 as [|a a' l l' Ha _ IH]; simpl; [discriminate|].
  destruct Ha as (Hid & Hdate & Hsame). rewrite Hid.
  destruct (BlogPost.id a =? index); [|exact IH].
  intros [= <-] [= <-]. now repeat split.
Qed.

Lemma update_blog_post_edited (d d' : Database) (post : BlogPost.t) :
  update_blog_post d post = inr d' ->
  users d' = users d /\ comments d' = comments d /\
  Forall2 (edited (BlogPost.id post)) (blog_posts d) (blog_posts d').
Proof.
  unfold update_blog_post. destruct (existsb _ _); [discriminate|].
  intros [= <-]. simpl. repeat split.
  apply Forall2_map_right. intros p.
  destruct (BlogPost.id p =? BlogPost.id post) eqn:E; repeat split; trivial.
  apply Z.eqb_eq in E. intros Hne. now destruct Hne.
Qed.

Lemma make_post_admin (forms : Form CreatePostForm.t) (now : datetime)
    (st : State) (u : User.t) :
  current_user st = Authenticated u -> User.id u = 1 ->
  validate_on_submit forms = true ->
  (forall p, In p (blog_posts (db st)) ->
             BlogPost.title p <> CreatePostForm.title (data forms)) ->
  make_post forms now st =
  (redirect ep_get_all_posts,
   commit (mkDatabase (users (db st))
                      (blog_posts (db st) ++ [new_post forms now st])
                      (comments (db st))) st).
Proof.
  intros Hu Hid Hv Hfresh. unfold make_post.
  rewrite (admin_only_admin _ st u Hu Hid), Hv, Hu. simpl.
  unfold add_blog_post.
  destruct (existsb _ _) eqn:E; [|unfold new_post; now rewrite Hid].
  apply existsb_exists in E. destruct E as (p & Hin & Ht).
  apply String.eqb_eq in Ht. now destruct (Hfresh p Hin).
Qed.

Lemma make_post_users (forms : Form CreatePostForm.t) (now : datetime)
    (st : State) :
  users (db (snd (make_post forms now st))) = users (db st).
Proof.
  unfold make_post.
  apply (admin_only_preserves (fun st st' => users (db st') = users (db st)));
    [reflexivity|].
  unfold add_blog_post. view_cases; reflexivity.
Qed.

Lemma make_post_posts (forms : Form CreatePostForm.t) (now : datetime)
    (st : State) :
  blog_posts (db (snd (make_post forms now st))) = blog_posts (db st) \/
  blog_posts (db (snd (make_post forms now st))) =
  blog_posts (db st) ++ [new_post forms now st].
Proof.
  destruct (admin_only_cases
              (fun st =>
                 if validate_on_submit forms then
                   match principal_id (current_user st) with
                   | inl e => (raise e, st)
                   | inr user_id =>
                       match add_blog_post (db st)
                               (CreatePostForm.title (data forms))
                               (CreatePostForm.subtitle (data forms))
                               (strftime now "%B %d, %Y")
                               (CreatePostForm.body (data forms))
                               (CreatePostForm.img_url (data forms))
                               (Some user_id) with
                       | inl e => (raise e, st)
                       | inr d => (redirect ep_get_all_posts, commit d st)
                       end
                   end
                 else (render_template (make_post_html forms false true), st))
              st) as [(u & Hu & Hid & E) | [E _]];
    unfold make_post; rewrite E; [|now left].
  destruct (validate_on_submit forms); [|now left].
  rewrite Hu. simpl. unfold add_blog_post.
  destruct (existsb _ _); [now left|]. right. unfold new_post. now rewrite Hid.
Qed.

Lemma edit_post_edited (post_id : Z) (form : Form CreatePostForm.t)
    (st : State) :
  users (db (snd (edit_post post_id form st))) = users (db st) /\
  comments (db (snd (edit_post post_id form st))) = comments (db st) /\
  Forall2 (edited post_id) (blog_posts (db st))
          (blog_posts (db (snd (edit_post post_id form st)))).
Proof.
  unfold edit_post.
  apply (admin_only_preserves
           (fun st st' => users (db st') = users (db st) /\
                          comments (db st') = comments (db st) /\
                          Forall2 (edited post_id) (blog_posts (db st))
                                  (blog_posts (db st')))).
  - repeat split. apply edited_refl.
  - destruct (BlogPost_query_get (db st) post_id) as [post|] eqn:Hp;
      [|repeat split; apply edited_refl].
    destruct (validate_on_submit _); [|repeat split; apply edited_refl].
    destruct (update_blog_post _ _) as [e|d'] eqn:Hup;
      [repeat split; apply edited_refl|].
    apply update_blog_post_edited in Hup. simpl in Hup |- *.
    destruct (BlogPost_query_get_key _ _ _ Hp) as [_ Hid].
    now rewrite Hid in Hup.
Qed.

Lemma delete_post_admin (post_id : Z) (st : State) (u : User.t) :
  current_user st = Authenticated u -> User.id u = 1 ->
  delete_post post_id st =
  match BlogPost_query_get (db st) post_id with
  | None => (raise UnmappedInstanceError, st)
  | Some post =>
      (redirect ep_get_all_posts, commit (delete_blog_post (db st) post) st)
  end.
Proof.
  intros Hu Hid. unfold delete_post. now rewrite (admin_only_admin _ st u Hu Hid).
Qed.

Lemma delete_post_users (post_id : Z) (st : State) :
  users (db (snd (delete_post post_id st))) = users (db st).
Proof.
  unfold delete_post.
  apply (admin_only_preserves (fun st st' => users (db st') = users (db st)));
    [reflexivity|].
  view_cases; reflexivity.
Qed.

Lemma delete_blog_post_detached (d : Database) (post : BlogPost.t) :
  Forall2 (detached (BlogPost.id post))
          (comments d) (comments (delete_blog_post d post)).
Proof.
  simpl. apply Forall2_map_right. intros c. unfold detach_comment.
  destruct (Comment.post_id c) as [k|] eqn:Hc; simpl.
  - destruct (k =? BlogPost.id post) eqn:E; simpl;
      (split; [|split; [|split; [|split]]]); trivial.
    + apply Z.eqb_eq in E. intros Hne. destruct Hne. now rewrite Hc, E.
    + apply Z.eqb_neq in E. rewrite Hc. intros [= Hk]. now destruct E.
  - (split; [|split; [|split; [|split]]]); trivial.
Qed.

Lemma delete_post_posts (post_id : Z) (st : State) :
  blog_posts (db (snd (delete_post post_id st))) = blog_posts (db st) \/
  blog_posts (db (snd (delete_post post_id st))) =
  filter (fun p => negb (BlogPost.id p =? post_id)) (blog_posts (db st)).
Proof.
  unfold delete_post.
  apply (admin_only_preserves
           (fun st st' =>
              blog_posts (db st') = blog_posts (db st) \/
              blog_posts (db st') =
              filter (fun p => negb (BlogPost.id p =? post_id))
                     (blog_posts (db st)))); [now left|].
  destruct (BlogPost_query_get (db st) post_id) as [post|] eqn:Hp; [|now left].
  right. simpl. now destruct (BlogPost_query_get_key _ _ _ Hp) as [_ ->].
Qed.

(** C6 (as the code has it): for the privileged principal, [delete_post]
    of a key no row carries ends in the exception raised by
    [db.session.delete(None)], not in [NotFound], and leaves the state as it
    was; of a key some row carries it removes the rows of that key and
    nothing else from the listing, after which the lookup of the key finds
    no post and the page of the key is rendered with [post=None]. *)
Theorem delete_post_outcomes (post_id : Z) (st : State) (u : User.t) :
  current_user st = Authenticated u -> User.id u = 1 ->
  (BlogPost_query_get (db st) post_id = None ->
   delete_post post_id st = (raise UnmappedInstanceError, st)) /\
  (forall post,
     BlogPost_query_get (db st) post_id = Some post ->
     fst (delete_post post_id st) = redirect ep_get_all_posts /\
     BlogPost_query_get (db (snd (delete_post post_id st))) post_id = None /\
     ~ In post (BlogPost_query_all (db (snd (delete_post post_id st)))) /\
     (forall p,
        In p (BlogPost_query_all (db (snd (delete_post post_id st)))) <->
        In p (BlogPost_query_all (db st)) /\ BlogPost.id p <> post_id) /\
     (forall comment_form,
        validate_on_submit comment_form = false ->
        fst (show_post post_id comment_form (snd (delete_post post_id st))) =
        render_template
          (post_html None true comment_form
                     (current_user (snd (delete_post post_id st))) post_id))).
Proof.
  intros Hu Hid. rewrite (delete_post_admin post_id st u Hu Hid). split.
  - now intros ->.
  - intros post Hp. rewrite Hp. simpl.
    destruct (BlogPost_query_get_key _ _ _ Hp) as [Hin Hkey].
    assert (Hgone : BlogPost_query_get (delete_blog_post (db st) post) post_id
                    = None).
    { unfold BlogPost_query_get. simpl.
      rewrite (find_filter_key BlogPost.id), Hkey. now rewrite Z.eqb_refl. }
    assert (Hlist : forall p,
               In p (blog_posts (delete_blog_post (db st) post)) <->
               In p (blog_posts (db st)) /\ BlogPost.id p <> post_id).
    { intros p. simpl. rewrite filter_In, Hkey, negb_true_iff, Z.eqb_neq.
      reflexivity. }
    split; [reflexivity|]. split; [exact Hgone|].
    unfold BlogPost_query_all. split; [|split; [exact Hlist|]].
    + intros H. apply Hlist in H. now destruct H as [_ H].
    + intros comment_form Hv.
      rewrite (show_post_not_submitted _ _ _ Hv). simpl. now rewrite Hgone.
Qed.

(** C8 (as the code has it): for the privileged principal, [delete_post]
    of an existing post deletes rows of [blog_posts] only; every comment
    stays in [comments] at its place with its key, author and text, the
    comments of the deleted post have their post reference set to null, and
    the other comments are untouched. *)
Theorem delete_post_detaches_comments (post_id : Z) (st : State)
    (u : User.t) (post : BlogPost.t) :
  current_user st = Authenticated u -> User.id u = 1 ->
  BlogPost_query_get (db st) post_id = Some post ->
  users (db (snd (delete_post post_id st))) = users (db st) /\
  blog_posts (db (snd (delete_post post_id st))) =
  filter (fun p => negb (BlogPost.id p =? post_id)) (blog_posts (db st)) /\
  Forall2 (detached post_id)
          (comments (db st)) (comments (db (snd (delete_post post_id st)))) /\
  (forall c, In c (comments (db (snd (delete_post post_id st)))) ->
             Comment.post_id c <> Some post_id).
Proof.
  intros Hu Hid Hp. rewrite (delete_post_admin post_id st u Hu Hid), Hp.
  destruct (BlogPost_query_get_key _ _ _ Hp) as [_ Hkey].
  split; [reflexivity|]. split; [simpl; now rewrite Hkey|]. split.
  - rewrite <- Hkey. apply delete_blog_post_detached.
  - simpl. intros c Hin. apply in_map_iff in Hin.
    destruct Hin as (c0 & <- & _). unfold detach_comment. rewrite Hkey.
    destruct (opt_eqb (Comment.post_id c0) (Some post_id)) eqn:E;
      [simpl; discriminate|].
    intros Hc. rewrite Hc in E. simpl in E. now rewrite Z.eqb_refl in E.
Qed.

(** ** Accounts: registration and login *)

Section Accounts.
Context {hashing : PasswordHashing}.

Lemma email_present (d : Database) (u : User.t) :
  In u (users d) ->
  exists v, User_query_filter_by_email_first d (User.email u) = Some v.
Proof.
  intros Hin. unfold User_query_filter_by_email_first.
  destruct (find _ (users d)) as [v|] eqn:E; [now exists v|].
  exfalso. apply (find_none _ _ E) in Hin. simpl in Hin.
  now rewrite String.eqb_refl in Hin.
Qed.

Lemma email_found_sound (d : Database) (email : string) (u : User.t) :
  User_query_filter_by_email_first d email = Some u ->
  In u (users d) /\ User.email u = email.
Proof.
  intros H. apply find_some in H. destruct H as [Hin E].
  split; [exact Hin | now apply String.eqb_eq].
Qed.

Lemma register_fresh_email (form : Form RegisterForm.t) (salt : string)
    (st : State) :
  validate_on_submit form = true ->
  User_query_filter_by_email_first
    (db st) (RegisterForm.email (data form)) = None ->
  register form salt st =
  (redirect ep_get_all_posts,
   commit (mkDatabase (users (db st) ++ [new_user form salt st])
                      (blog_posts (db st)) (comments (db st))) st).
Proof.
  intros Hv Hnone. unfold register, add_user. rewrite Hv, Hnone.
  unfold User_query_filter_by_email_first in Hnone.
  now rewrite (find_none_existsb _ _ Hnone).
Qed.

(** The table [user] only grows, by one row with a fresh key and a fresh
    email at a time. *)
Lemma register_users (form : Form RegisterForm.t) (salt : string)
    (st : State) :
  users (db (snd (register form salt st))) = users (db st) \/
  (User_query_filter_by_email_first
     (db st) (RegisterForm.email (data form)) = None /\
   users (db (snd (register form salt st))) =
   users (db st) ++ [new_user form salt st]).
Proof.
  destruct (validate_on_submit form) eqn:Hv.
  - destruct (User_query_filter_by_email_first
                (db st) (RegisterForm.email (data form))) as [u|] eqn:E.
    + left. unfold register. now rewrite Hv, E.
    + right. split; [reflexivity|].
      now rewrite (register_fresh_email form salt st Hv E).
  - left. unfold register. now rewrite Hv.
Qed.

Lemma register_tables (form : Form RegisterForm.t) (salt : string)
    (st : State) :
  blog_posts (db (snd (register form salt st))) = blog_posts (db st) /\
  comments (db (snd (register form salt st))) = comments (db st).
Proof. unfold register, add_user. view_cases; now split. Qed.

(** C2: a registration with an email that some row of [user] already
    carries changes neither the database nor the session; when the form
    validates it flashes the notice and redirects to the login page. *)
Theorem register_duplicate_email (form : Form RegisterForm.t)
    (salt : string) (st : State) (u : User.t) :
  In u (users (db st)) ->
  User.email u = RegisterForm.email (data form) ->
  db (snd (register form salt st)) = db st /\
  session (snd (register form salt st)) = session st /\
  (validate_on_submit form = true ->
   register form salt st =
   (redirect ep_login,
    flash "This email has been registered. Login with the email" st)).
Proof.
  intros Hin He. destruct (email_present (db st) u Hin) as [v Hv].
  rewrite He in Hv. unfold register. rewrite Hv.
  destruct (validate_on_submit form); repeat split; discriminate.
Qed.

(** C7: [register] never touches the login session; an anonymous caller
    is still anonymous after the request, also when the registration
    succeeded and the new row was persisted. *)
Theorem register_keeps_session (form : Form RegisterForm.t)
    (salt : string) (st : State) :
  session (snd (register form salt st)) = session st /\
  (session st = None ->
   current_user (snd (register form salt st)) = AnonymousUserMixin) /\
  (validate_on_submit form = true ->
   User_query_filter_by_email_first
     (db st) (RegisterForm.email (data form)) = None ->
   fst (register form salt st) = redirect ep_get_all_posts /\
   users (db (snd (register form salt st))) =
   users (db st) ++ [new_user form salt st] /\
   session (snd (register form salt st)) = session st).
Proof.
  assert (Hs : session (snd (register form salt st)) = session st).
  { unfold register. destruct (validate_on_submit form); [|reflexivity].
    destruct (User_query_filter_by_email_first _ _); [reflexivity|].
    now destruct (add_user _ _ _ _). }
  split; [exact Hs|]. split.
  - intros Hnone. apply current_user_anonymous_session. now rewrite Hs.
  - intros Hv Hfresh. rewrite (register_fresh_email form salt st Hv Hfresh).
    now repeat split.
Qed.

Lemma login_db (form : Form LoginForm.t) (st : State) :
  db (snd (login form st)) = db st.
Proof. unfold login. view_cases; reflexivity. Qed.

Lemma login_user_current (u : User.t) (st : State) :
  user_keys_unique (db st) -> In u (users (db st)) ->
  current_user (login_user u st) = Authenticated u.
Proof.
  intros Hk Hin. unfold current_user, load_user, User_query_get. simpl.
  now rewrite (find_by_unique_key User.id _ u Hk Hin).
Qed.

Lemma login_registered (form : Form LoginForm.t) (st : State) :
  user_keys_unique (db st) ->
  validate_on_submit form = true ->
  registered (db st) (LoginForm.email (data form))
             (LoginForm.password (data form)) ->
  exists u,
    In u (users (db st)) /\
    User.email u = LoginForm.email (data form) /\
    login form st = (redirect ep_get_all_posts, login_user u st) /\
    current_user (snd (login form st)) = Authenticated u /\
    db (snd (login form st)) = db st.
Proof.
  intros Hk Hv (u & Hu & Hc). exists u. unfold login.
  rewrite Hv, Hu, Hc. simpl.
  destruct (email_found_sound _ _ _ Hu) as [Hin He].
  repeat split; trivial. now apply login_user_current.
Qed.

Lemma login_unknown_email (form : Form LoginForm.t) (st : State) :
  validate_on_submit form = true ->
  (forall u, In u (users (db st)) ->
             User.email u <> LoginForm.email (data form)) ->
  login form st =
  (redirect ep_login,
   flash "This email does not exist. Please try again" st).
Proof.
  intros Hv Hnone. unfold login. rewrite Hv.
  destruct (User_query_filter_by_email_first _ _) as [u|] eqn:E;
    [|reflexivity].
  destruct (email_found_sound _ _ _ E) as [Hin He].
  now destruct (Hnone u Hin).
Qed.

Lemma login_wrong_password (form : Form LoginForm.t) (st : State)
    (u : User.t) :
  validate_on_submit form = true ->
  User_query_filter_by_email_first
    (db st) (LoginForm.email (data form)) = Some u ->
  check_password_hash (User.password u)
                      (LoginForm.password (data form)) = false ->
  login form st =
  (render_template (login_html form (is_authenticated (current_user st))),
   flash "Password incorrect. Please try again" st).
Proof.
  intros Hv Hu Hc. unfold login. now rewrite Hv, Hu, Hc.
Qed.

(** C3: the three outcomes of a validated login form.  For a registered
    pair the session principal becomes the row of that email and the
    caller is sent to the post listing; an email no row carries and a
    password that fails the check each flash their notice and leave the
    session as it was. *)
Theorem login_outcomes (form : Form LoginForm.t) (st : State) :
  user_keys_unique (db st) ->
  validate_on_submit form = true ->
  (registered (db st) (LoginForm.email (data form))
              (LoginForm.password (data form)) ->
   exists u,
     In u (users (db st)) /\
     User.email u = LoginForm.email (data form) /\
     login form st = (redirect ep_get_all_posts, login_user u st) /\
     current_user (snd (login form st)) = Authenticated u /\
     db (snd (login form st)) = db st) /\
  ((forall u, In u (users (db st)) ->
              User.email u <> LoginForm.email (data form)) ->
   login form st =
   (redirect ep_login,
    flash "This email does not exist. Please try again" st) /\
   session (snd (login form st)) = session st /\
   db (snd (login form st)) = db st) /\
  (forall u,
     User_query_filter_by_email_first
       (db st) (LoginForm.email (data form)) = Some u ->
     check_password_hash (User.password u)
                         (LoginForm.password (data form)) = false ->
     login form st =
     (render_template
        (login_html form (is_authenticated (current_user st))),
      flash "Password incorrect. Please try again" st) /\
     session (snd (login form st)) = session st /\
     db (snd (login form st)) = db st).
Proof.
  intros Hk Hv. split; [|split].
  - now apply login_registered.
  - intros Hnone. now rewrite (login_unknown_email form st Hv Hnone).
  - intros u Hu Hc. now rewrite (login_wrong_password form st u Hv Hu Hc).
Qed.

(** A successful registration registers its pair, given the law of the
    hashing. *)
Lemma register_registers (form : Form RegisterForm.t) (salt : string)
    (st : State) :
  check_generate hashing ->
  validate_on_submit form = true ->
  User_query_filter_by_email_first
    (db st) (RegisterForm.email (data form)) = None ->
  registered (db (snd (register form salt st)))
             (RegisterForm.email (data form))
             (RegisterForm.password (data form)).
Proof.
  intros Hlaw Hv Hfresh. rewrite (register_fresh_email form salt st Hv Hfresh).
  exists (new_user form salt st). simpl. split.
  - unfold User_query_filter_by_email_first in *. simpl.
    rewrite find_app, Hfresh. simpl. now rewrite String.eqb_refl.
  - apply Hlaw.
Qed.

End Accounts.

(** ** The application step by step *)

Section Steps.
Context {hashing : PasswordHashing}.

Lemma logout_db (st : State) : db (snd (logout st)) = db st.
Proof. unfold logout, login_required. view_cases; reflexivity. Qed.

(** The table [user] only grows, and only by [register]. *)
Lemma dispatch_users (r : Request) (st : State) :
  users (db (snd (dispatch r st))) = users (db st) \/
  exists form salt,
    User_query_filter_by_email_first
      (db st) (RegisterForm.email (data form)) = None /\
    users (db (snd (dispatch r st))) =
    users (db st) ++ [new_user form salt st].
Proof.
  destruct r; simpl; try (left; reflexivity).
  - destruct (register_users form salt st) as [E | E];
      [now left | right; now exists form, salt].
  - left. now rewrite login_db.
  - left. now rewrite logout_db.
  - left. apply show_post_tables.
  - left. apply make_post_users.
  - left. apply edit_post_edited.
  - left. apply delete_post_users.
Qed.

(** Keys and emails of [user] stay pairwise distinct in every state the
    application can reach: no email is ever carried by two rows. *)
Lemma reachable_users_unique (st : State) :
  reachable st ->
  user_keys_unique (db st) /\ NoDup (map User.email (users (db st))).
Proof.
  unfold user_keys_unique.
  induction 1 as [|r st Hr [IHk IHe]]; simpl; [split; constructor|].
  destruct (dispatch_users r st) as [-> | (form & salt & Hnone & ->)];
    [now split|].
  rewrite !map_app. simpl. split.
  - apply NoDup_app; [exact IHk | repeat constructor; simpl; tauto |].
    intros k Hk [<- | []]. now apply next_id_fresh in Hk.
  - apply NoDup_app; [exact IHe | repeat constructor; simpl; tauto |].
    intros e He [<- | []]. apply in_map_iff in He.
    destruct He as (u & Eu & Hin).
    apply (find_none _ _ Hnone) in Hin. simpl in Hin.
    rewrite Eu, String.eqb_refl in Hin. discriminate.
Qed.

(** No request unregisters a pair: rows of [user] are neither changed nor
    removed, and a later row never shadows an earlier one. *)
Lemma registered_stable (r : Request) (st : State) (email password : string) :
  registered (db st) email password ->
  registered (db (snd (dispatch r st))) email password.
Proof.
  intros (u & Hu & Hc). exists u. split; [|exact Hc].
  unfold User_query_filter_by_email_first in *.
  destruct (dispatch_users r st) as [-> | (form & salt & _ & ->)];
    [exact Hu|].
  now rewrite find_app, Hu.
Qed.

Lemma registered_serve (rs : list Request) (st : State)
    (email password : string) :
  registered (db st) email password ->
  registered (db (serve rs st)) email password.
Proof.
  revert st. induction rs as [|r rs IH]; intros st H; simpl; [exact H|].
  apply IH. now apply registered_stable.
Qed.

Lemma reachable_serve (rs : list Request) (st : State) :
  reachable st -> reachable (serve rs st).
Proof.
  revert st. induction rs as [|r rs IH]; intros st H; simpl; [exact H|].
  apply IH. now constructor.
Qed.

(** Registration, any later traffic, then login with the same pair: the
    login succeeds as the registered user. *)
Lemma register_then_login (form : Form RegisterForm.t) (salt : string)
    (rs : list Request) (st : State) (m : Form LoginForm.t) :
  check_generate hashing ->
  reachable st ->
  validate_on_submit form = true ->
  User_query_filter_by_email_first
    (db st) (RegisterForm.email (data form)) = None ->
  validate_on_submit m = true ->
  LoginForm.email (data m) = RegisterForm.email (data form) ->
  LoginForm.password (data m) = RegisterForm.password (data form) ->
  let st' := serve rs (snd (register form salt st)) in
  exists u,
    User.email u = RegisterForm.email (data form) /\
    fst (login m st') = redirect ep_get_all_posts /\
    current_user (snd (login m st')) = Authenticated u.
Proof.
  intros Hlaw Hr Hv Hfresh Hm He Hp st'.
  assert (Hreach : reachable st').
  { apply reachable_serve. exact (reachable_step (Register form salt) st Hr). }
  assert (Hreg : registered (db st') (LoginForm.email (data m))
                            (LoginForm.password (data m))).
  { rewrite He, Hp. apply registered_serve. now apply register_registers. }
  destruct (login_registered m st'
              (proj1 (reachable_users_unique st' Hreach)) Hm Hreg)
    as (u & _ & Eu & El & Ec & _).
  exists u. rewrite <- He. repeat split; trivial. now rewrite El.
Qed.

(** Every request changes [blog_posts] in one of the three ways of
    [posts_step]. *)
Lemma dispatch_posts (r : Request) (st : State) :
  posts_step (blog_posts (db st)) (blog_posts (db (snd (dispatch r st)))).
Proof.
  assert (Hsame : forall st' : State,
             blog_posts (db st') = blog_posts (db st) ->
             posts_step (blog_posts (db st)) (blog_posts (db st'))).
  { intros st' ->. apply (posts_edited _ _ 0), edited_refl. }
  destruct r; simpl; try (apply Hsame; reflexivity).
  - apply Hsame, register_tables.
  - apply Hsame. now rewrite login_db.
  - apply Hsame. now rewrite logout_db.
  - apply Hsame, show_post_tables.
  - destruct (make_post_posts forms now st) as [E | E].
    + now apply Hsame.
    + now apply posts_appended with (new_post forms now st).
  - apply posts_edited with post_id. apply edit_post_edited.
  - destruct (delete_post_posts post_id st) as [E | E].
    + now apply Hsame.
    + now apply posts_deleted with post_id.
Qed.

(** No request changes the publish-date of a post that it keeps. *)
Lemma dispatch_keeps_date (r : Request) (st : State) (index : Z)
    (p p' : BlogPost.t) :
  BlogPost_query_get (db st) index = Some p ->
  BlogPost_query_get (db (snd (dispatch r st))) index = Some p' ->
  BlogPost.date p' = BlogPost.date p.
Proof.
  unfold BlogPost_query_get. intros Hp Hp'.
  destruct (dispatch_posts r st) as [q E | k E | k E].
  - rewrite E, find_app, Hp in Hp'. now injection Hp' as <-.
  - now destruct (edited_find k index _ _ p p' E Hp Hp') as (_ & Hd & _).
  - rewrite E, (find_filter_key BlogPost.id) in Hp'.
    destruct (index =? k); [discriminate|].
    rewrite Hp in Hp'. now injection Hp' as <-.
Qed.

(** C5: [make_post] stamps the new row with the current date formatted
    as month name, two-digit day and year; [edit_post] leaves the key and
    the publish-date of every row as they were and touches no row but the
    one of the given key, nor any other table; and no request at all
    changes the publish-date of a post it keeps. *)
Theorem publish_date_set_once :
  (forall forms now st u,
      current_user st = Authenticated u -> User.id u = 1 ->
      validate_on_submit forms = true ->
      (forall p, In p (blog_posts (db st)) ->
                 BlogPost.title p <> CreatePostForm.title (data forms)) ->
      make_post forms now st =
      (redirect ep_get_all_posts,
       commit (mkDatabase (users (db st))
                          (blog_posts (db st) ++ [new_post forms now st])
                          (comments (db st))) st) /\
      BlogPost.date (new_post forms now st) =
      (month_name (month now) ++ " " ++ two_digits (day now) ++ ", "
       ++ decimal (year now))%string) /\
  (forall post_id form st,
      users (db (snd (edit_post post_id form st))) = users (db st) /\
      comments (db (snd (edit_post post_id form st))) = comments (db st) /\
      Forall2 (edited post_id) (blog_posts (db st))
              (blog_posts (db (snd (edit_post post_id form st))))) /\
  (forall r st index p p',
      BlogPost_query_get (db st) index = Some p ->
      BlogPost_query_get (db (snd (dispatch r st))) index = Some p' ->
      BlogPost.date p' = BlogPost.date p).
Proof.
  split; [|split].
  - intros forms now st u Hu Hid Hv Hfresh. split.
    + now apply make_post_admin with u.
    + apply strftime_long_date.
  - apply edit_post_edited.
  - apply dispatch_keeps_date.
Qed.

End Steps.

(** ** The statements on the sample data *)

Lemma substring_whole (s : string) (n : nat) :
  (String.length s <= n)%nat -> substring 0 n s = s.
Proof.
  revert n. induction s as [|c s IH]; intros [|n] H; simpl in *;
    try reflexivity; try lia.
  rewrite IH; [reflexivity | lia].
Qed.

Lemma length_append (s t : string) :
  String.length (s ++ t) = (String.length s + String.length t)%nat.
Proof. induction s as [|c s IH]; simpl; [reflexivity | now rewrite IH]. Qed.

Lemma substring_skip (s t : string) (n : nat) :
  substring (String.length s) n (s ++ t) = substring 0 n t.
Proof. induction s as [|c s IH]; simpl; [reflexivity | exact IH]. Qed.

(** The sample hashing obeys the law. *)
Lemma toy_hashing_law : check_generate toy_hashing.
Proof.
  intros password salt. simpl. apply existsb_exists.
  exists (String.length salt). split.
  - apply in_seq. rewrite length_append. simpl. lia.
  - rewrite substring_skip, substring_whole; [apply String.eqb_refl|].
    rewrite length_append. simpl. lia.
Qed.

(** The anonymous caller on the three admin routes. *)
Lemma admin_routes_anonymous_witness :
  current_user as_anonymous = AnonymousUserMixin /\
  make_post (sample_post_form POST) sample_now as_anonymous =
    (raise AttributeError, as_anonymous) /\
  edit_post 1 (sample_post_form POST) as_anonymous =
    (raise AttributeError, as_anonymous) /\
  delete_post 1 as_anonymous = (raise AttributeError, as_anonymous).
Proof.
  destruct (admin_routes_anonymous as_anonymous eq_refl) as (Hm & He & Hd).
  split; [reflexivity|]. split; [|split].
  - exact (proj1 (Hm (sample_post_form POST) sample_now)).
  - exact (proj1 (He 1 (sample_post_form POST))).
  - exact (proj1 (Hd 1)).
Defined.

(** Alice, a non-privileged authenticated principal, gets 403. *)
Lemma admin_routes_forbidden_alice :
  delete_post 1 as_alice = (abort 403 "This page is not found at all", as_alice).
Proof.
  apply (admin_routes_forbidden as_alice sample_alice); [reflexivity|].
  simpl. lia.
Qed.

(** A second registration with Alice's email. *)
Lemma register_duplicate_email_witness :
  let form := mkForm POST (RegisterForm.mk "Eve" "a@x.com" "pw9") true in
  db (snd (register (hashing := toy_hashing) form "abcdefgh" as_anonymous))
  = sample_db /\
  register (hashing := toy_hashing) form "abcdefgh" as_anonymous =
  (redirect ep_login,
   flash "This email has been registered. Login with the email" as_anonymous).
Proof.
  intros form.
  destruct (register_duplicate_email
              (hashing := toy_hashing) form "abcdefgh" as_anonymous sample_alice)
    as (Hdb & _ & Hr).
  - simpl. right. left. reflexivity.
  - reflexivity.
  - split; [exact Hdb | exact (Hr eq_refl)].
Defined.

(** Bob registers while anonymous and stays anonymous. *)
Lemma register_keeps_session_witness :
  let form := mkForm POST (RegisterForm.mk "Bob" "b@x.com" "pw2") true in
  let st' := snd (register (hashing := toy_hashing) form "abcdefgh"
                           as_anonymous) in
  current_user st' = AnonymousUserMixin /\
  users (db st') =
  [sample_admin; sample_alice; User.mk 3 "b@x.com" "abcdefgh$pw2" "Bob"].
Proof.
  intros form st'.
  destruct (register_keeps_session
              (hashing := toy_hashing) form "abcdefgh" as_anonymous)
    as (_ & Hanon & Hnew).
  split; [exact (Hanon eq_refl)|].
  destruct (Hnew eq_refl eq_refl) as (_ & Hu & _). exact Hu.
Defined.

(** Alice logs in with her password. *)
Lemma login_outcomes_witness :
  let form := mkForm POST (LoginForm.mk "a@x.com" "pw1") true in
  exists u,
    login (hashing := toy_hashing) form as_anonymous =
    (redirect ep_get_all_posts, login_user u as_anonymous) /\
    current_user (snd (login (hashing := toy_hashing) form as_anonymous)) =
    Authenticated u.
Proof.
  intros form.
  assert (Hk : user_keys_unique (db as_anonymous)).
  { unfold user_keys_unique. simpl. repeat constructor; simpl; intuition lia. }
  destruct (login_outcomes (hashing := toy_hashing) form as_anonymous Hk eq_refl)
    as (Hok & _ & _).
  destruct Hok as (u & _ & _ & Hl & Hc & _).
  - exists sample_alice. split; reflexivity.
  - exists u. split; [exact Hl | exact Hc].
Defined.

(** Bob registers, Alice and an anonymous reader pass by, Bob logs in. *)
Lemma register_then_login_sample :
  let bob := mkForm POST (RegisterForm.mk "Bob" "b@x.com" "pw2") true in
  let st' :=
    serve (hashing := toy_hashing)
          [Login (mkForm POST (LoginForm.mk "a@x.com" "pw1") true);
           ShowPost 1 (sample_comment_form POST); Logout; GetAllPosts]
          (snd (register (hashing := toy_hashing) bob "abcdefgh"
                         initial_state)) in
  exists u,
    User.email u = "b@x.com" /\
    fst (login (hashing := toy_hashing)
               (mkForm POST (LoginForm.mk "b@x.com" "pw2") true) st') =
    redirect ep_get_all_posts /\
    current_user (snd (login (hashing := toy_hashing)
                             (mkForm POST (LoginForm.mk "b@x.com" "pw2") true)
                             st')) = Authenticated u.
Proof.
  intros bob st'.
  apply (register_then_login (hashing := toy_hashing) bob "abcdefgh");
    try reflexivity.
  - exact toy_hashing_law.
  - constructor.
Qed.

(** Alice comments on post 1. *)
Lemma show_post_comment_witness :
  exists c,
    comments (db (snd (show_post 1 (sample_comment_form POST) as_alice))) =
    [sample_comment1; sample_comment2; c] /\
    Comment.author_id c = Some 2 /\ Comment.post_id c = Some 1.
Proof.
  destruct (show_post_comment 1 (sample_comment_form POST) as_alice eq_refl)
    as (_ & Hauth).
  destruct (Hauth sample_alice eq_refl) as (c & Hs & Ha & _ & Hp & _).
  exists c. rewrite Hs. split; [reflexivity|]. split; [exact Ha|].
  exact (Hp sample_post1 eq_refl).
Defined.

(** An anonymous GET of post 1. *)
Lemma show_post_get_renders_witness :
  show_post 1 (sample_comment_form GET) as_anonymous =
  (render_template
     (post_html (Some sample_post1) true (sample_comment_form GET)
                AnonymousUserMixin 1), as_anonymous).
Proof.
  exact (proj1 (show_post_get_renders 1 (sample_comment_form GET) as_anonymous
                                      eq_refl)).
Defined.

(** Alice comments on the absent post 9. *)
Lemma show_post_absent_witness :
  fst (show_post 9 (sample_comment_form GET) as_alice) =
  render_template
    (post_html None true (sample_comment_form GET)
               (Authenticated sample_alice) 9) /\
  exists c,
    comments (db (snd (show_post 9 (sample_comment_form POST) as_alice))) =
    [sample_comment1; sample_comment2; c] /\
    Comment.post_id c = None.
Proof.
  split.
  - destruct (show_post_absent 9 (sample_comment_form GET) as_alice eq_refl)
      as (_ & Hr & _).
    now rewrite (Hr eq_refl).
  - destruct (show_post_absent 9 (sample_comment_form POST) as_alice eq_refl)
      as (_ & _ & Hc).
    destruct (Hc sample_alice eq_refl eq_refl) as (c & _ & Hs & Hp & _).
    exists c. split; [exact Hs | exact Hp].
Defined.

(** The admin creates a post on April 5, 2024. *)
Lemma publish_date_set_once_witness :
  blog_posts (db (snd (make_post (sample_post_form POST) sample_now as_admin)))
  = [sample_post1; sample_post2;
     BlogPost.mk 3 "Third" "sub" "April 05, 2024" "<p>3</p>" "t.png" (Some 1)].
Proof.
  destruct (publish_date_set_once (hashing := toy_hashing)) as (Hmake & _ & _).
  destruct (Hmake (sample_post_form POST) sample_now as_admin sample_admin)
    as (Hm & _).
  - reflexivity.
  - reflexivity.
  - reflexivity.
  - simpl. intros p [<- | [<- | []]]; discriminate.
  - rewrite Hm. reflexivity.
Defined.

(** The admin deletes the absent post 7, then the present post 1. *)
Lemma delete_post_outcomes_witness :
  delete_post 7 as_admin = (raise UnmappedInstanceError, as_admin) /\
  BlogPost_query_all (db (snd (delete_post 1 as_admin))) = [sample_post2] /\
  BlogPost_query_get (db (snd (delete_post 1 as_admin))) 1 = None.
Proof.
  split; [|split].
  - destruct (delete_post_outcomes 7 as_admin sample_admin eq_refl eq_refl)
      as (Habsent & _).
    exact (Habsent eq_refl).
  - reflexivity.
  - destruct (delete_post_outcomes 1 as_admin sample_admin eq_refl eq_refl)
      as (_ & Hpresent).
    destruct (Hpresent sample_post1 eq_refl) as (_ & Hgone & _).
    exact Hgone.
Defined.

(** The admin deletes post 1, which has one comment. *)
Lemma delete_post_detaches_comments_witness :
  Forall2 (detached 1)
          [sample_comment1; sample_comment2]
          (comments (db (snd (delete_post 1 as_admin)))).
Proof.
  destruct (delete_post_detaches_comments 1 as_admin sample_admin sample_post1
              eq_refl eq_refl eq_refl) as (_ & _ & Hd & _).
  exact Hd.
Defined.

(** C6, refuted as stated: for the privileged principal, deleting the
    absent key 7 ends in [UnmappedInstanceError], which is no [NotFound];
    and after post 1 was deleted, fetching key 1 renders the page with
    [post=None], which is no [NotFound] either. *)
Lemma delete_post_no_NotFound :
  BlogPost_query_get (db as_admin) 7 = None /\
  fst (delete_post 7 as_admin) = raise UnmappedInstanceError /\
  ~ NotFound (fst (delete_post 7 as_admin)) /\
  BlogPost_query_get (db as_admin) 1 = Some sample_post1 /\
  ~ NotFound (fst (show_post 1 (sample_comment_form GET)
                             (snd (delete_post 1 as_admin)))).
Proof.
  repeat split; intros [description E]; discriminate E.
Qed.

(** C8, refuted as stated: the comment on post 1 is not left unchanged by
    the deletion of post 1; its post reference, [Some 1] before, is null
    afterwards, so it does not dangle. *)
Lemma delete_post_changes_comment :
  In sample_comment1 (comments (db as_admin)) /\
  Comment.post_id sample_comment1 = Some 1 /\
  ~ In sample_comment1 (comments (db (snd (delete_post 1 as_admin)))) /\
  comments (db (snd (delete_post 1 as_admin))) =
  [Comment.mk 1 (Some 2) None "nice"; sample_comment2].
Proof.
  split; [now left|]. split; [reflexivity|]. split; [|reflexivity].
  simpl. intros [E | [E | []]]; discriminate E.
Qed.

(** The scenario of the specification, with the accounts in the order that
    makes Bob the first one: Bob (id 1) creates the post "Hello"; Alice
    (id 2) is refused. *)
Lemma scenario :
  let bob := mkForm POST (RegisterForm.mk "Bob" "b@x.com" "pw2") true in
  let alice := mkForm POST (RegisterForm.mk "Alice" "a@x.com" "pw1") true in
  let hello :=
    mkForm POST (CreatePostForm.mk "Hello" "sub" "h.png" None "<p>hi</p>")
           true in
  let st :=
    serve (hashing := toy_hashing)
          [Register bob "saltsalt"; Register alice "saltsalt";
           Login (mkForm POST (LoginForm.mk "a@x.com" "pw1") true)]
          initial_state in
  let st' :=
    serve (hashing := toy_hashing)
          [Login (mkForm POST (LoginForm.mk "b@x.com" "pw2") true);
           MakePost hello sample_now]
          st in
  Forbidden (fst (make_post hello sample_now st)) /\
  map BlogPost.title (BlogPost_query_all (db st')) = ["Hello"].
Proof.
  split; [|reflexivity]. now eexists.
Qed.

(** * Further properties of the views *)

(** ** Every request as a step of the database *)

Lemma existsb_false_forall {A} (f : A -> bool) (l : list A) :
  existsb f l = false -> forall x, In x l -> f x = false.
Proof.
  intros H x Hin. destruct (f x) eqn:E; [|reflexivity].
  rewrite <- H. symmetry. apply existsb_exists. now exists x.
Qed.

Lemma commit_same (st : State) : commit (db st) st = st.
Proof. now destruct st. Qed.

Section DatabaseSteps.
Context {hashing : PasswordHashing}.

Lemma dispatch_db_step (r : Request) (st : State) :
  db_step st (db (snd (dispatch r st))).
Proof.
  destruct r; simpl; try (now apply step_none).
  - destruct (validate_on_submit form) eqn:Hv.
    + destruct (User_query_filter_by_email_first
                  (db st) (RegisterForm.email (data form))) as [u|] eqn:E.
      * apply step_none. unfold register. now rewrite Hv, E.
      * apply step_register with form salt; [exact E|].
        now rewrite (register_fresh_email form salt st Hv E).
    + apply step_none. unfold register. now rewrite Hv.
  - apply step_none, login_db.
  - apply step_none, logout_db.
  - destruct (validate_on_submit comment_form) eqn:Hv.
    + destruct (current_user st) as [u|] eqn:Hu.
      * rewrite (show_post_authenticated_submit _ _ _ _ Hv Hu).
        now apply step_comment with u index
                                    (CommentForm.comment (data comment_form)).
      * now rewrite (show_post_anonymous_submit _ _ _ Hv Hu); apply step_none.
    + now rewrite (show_post_not_submitted _ _ _ Hv); apply step_none.
  - unfold make_post.
    match goal with
    | |- context [admin_only ?f st] =>
        destruct (admin_only_cases f st) as [(u & Hu & Hid & E) | [E _]];
        rewrite E; [|now apply step_none]
    end.
    destruct (validate_on_submit forms); [|now apply step_none].
    rewrite Hu. simpl. unfold add_blog_post.
    destruct (existsb _ _) eqn:Ex; [now apply step_none|].
    apply step_make_post with u forms now; trivial.
    + intros p Hin Ht. apply (existsb_false_forall _ _ Ex) in Hin.
      simpl in Hin. rewrite Ht, String.eqb_refl in Hin. discriminate.
    + simpl. unfold new_post. now rewrite Hid.
  - unfold edit_post.
    match goal with
    | |- context [admin_only ?f st] =>
        destruct (admin_only_cases f st) as [(u & Hu & Hid & E) | [E _]];
        rewrite E; [|now apply step_none]
    end.
    destruct (BlogPost_query_get (db st) post_id) as [post|] eqn:Hp;
      [|now apply step_none].
    destruct (validate_on_submit _); [|now apply step_none].
    destruct (update_blog_post _ _) as [e|d'] eqn:Hup; [now apply step_none|].
    now apply step_edit_post with u post_id post (data (prefill post form)).
  - unfold delete_post.
    match goal with
    | |- context [admin_only ?f st] =>
        destruct (admin_only_cases f st) as [(u & Hu & Hid & E) | [E _]];
        rewrite E; [|now apply step_none]
    end.
    destruct (BlogPost_query_get (db st) post_id) as [post|] eqn:Hp;
      [|now apply step_none].
    now apply step_delete_post with u post_id post.
Qed.

End DatabaseSteps.

(** ** Who can change what *)

Lemma kept_refl (l : list Comment.t) : Forall2 kept l l.
Proof. induction l; constructor; trivial. now repeat split. Qed.

Lemma kept_trans (l1 l2 l3 : list Comment.t) :
  Forall2 kept l1 l2 -> Forall2 kept l2 l3 -> Forall2 kept l1 l3.
Proof.
  intros H. revert l3. induction H as [|a b l1 l2 (Hi & Ha & Ht) _ IH];
    intros l3 H23; inversion H23 as [|b' c l2' l3' (Hi' & Ha' & Ht') H23']; subst;
    constructor; [|now apply IH].
  repeat split; congruence.
Qed.

Lemma kept_detach (post : BlogPost.t) (l : list Comment.t) :
  Forall2 kept l (map (detach_comment post) l).
Proof.
  apply Forall2_map_right. intros c. unfold detach_comment.
  destruct (opt_eqb _ _); now repeat split.
Qed.

Section Access.
Context {hashing : PasswordHashing}.

Lemma register_keeps_session_frame (form : Form RegisterForm.t)
    (salt : string) (st : State) :
  session (snd (register form salt st)) = session st.
Proof. unfold register, add_user. view_cases; reflexivity. Qed.

(** The table [blog_posts] changes only at the hands of the authenticated
    principal of id 1, whatever the request. *)
Theorem only_admin_changes_posts (r : Request) (st : State) :
  blog_posts (db (snd (dispatch r st))) <> blog_posts (db st) ->
  exists u, current_user st = Authenticated u /\ User.id u = 1.
Proof.
  intros Hne.
  destruct (dispatch_db_step r st)
    as [E | form salt _ E | u index text _ E | u forms now Hu Hid _ _
        | u post_id post fields Hu Hid _ _ | u post_id post Hu Hid _ _];
    try (exists u; now split); rewrite E in Hne; now destruct Hne.
Qed.

(** A request of an anonymous caller changes neither [blog_posts] nor
    [comments]: all an anonymous caller can add to the database is an
    account. *)
Theorem anonymous_cannot_write_content (r : Request) (st : State) :
  current_user st = AnonymousUserMixin ->
  blog_posts (db (snd (dispatch r st))) = blog_posts (db st) /\
  comments (db (snd (dispatch r st))) = comments (db st).
Proof.
  intros Hanon.
  destruct (dispatch_db_step r st)
    as [E | form salt _ E | u index text Hu _ | u forms now Hu _ _ _
        | u post_id post fields Hu _ _ _ | u post_id post Hu _ _ _];
    try (rewrite Hanon in Hu; discriminate Hu); rewrite E; now split.
Qed.

(** The login session changes only by the views [login] and [logout]. *)
Theorem session_changes_only_by_login_logout (r : Request) (st : State) :
  session (snd (dispatch r st)) <> session st ->
  (exists form, r = Login form) \/ r = Logout.
Proof.
  intros Hne.
  destruct r; try (left; eexists; reflexivity); try (right; reflexivity);
    exfalso; apply Hne; simpl; try reflexivity.
  - apply register_keeps_session_frame.
  - unfold show_post. view_cases; reflexivity.
  - unfold make_post.
    apply (admin_only_preserves (fun st st' => session st' = session st));
      [reflexivity|].
    unfold add_blog_post. view_cases; reflexivity.
  - unfold edit_post.
    apply (admin_only_preserves (fun st st' => session st' = session st));
      [reflexivity|].
    unfold update_blog_post. view_cases; reflexivity.
  - unfold delete_post.
    apply (admin_only_preserves (fun st st' => session st' = session st));
      [reflexivity|].
    view_cases; reflexivity.
Qed.

End Access.

(** ** Requests that submit nothing, accounts and comments over time *)

Lemma not_submitted {A} (form : Form A) :
  is_submitted (method form) = false -> validate_on_submit form = false.
Proof. unfold validate_on_submit. now intros ->. Qed.

Lemma find_by_unique_email (l : list User.t) (u : User.t) :
  NoDup (map User.email l) -> In u l ->
  find (fun x => String.eqb (User.email x) (User.email u)) l = Some u.
Proof.
  induction l as [|b l IH]; simpl; [tauto|].
  intros Hnd Hin. inversion Hnd as [|k ks Hnotin Hnd']; subst.
  destruct Hin as [-> | Hin].
  - now rewrite String.eqb_refl.
  - destruct (String.eqb (User.email b) (User.email u)) eqn:E.
    + apply String.eqb_eq in E. exfalso. apply Hnotin. rewrite E.
      now apply in_map.
    + now apply IH.
Qed.

Section OverTime.
Context {hashing : PasswordHashing}.

(** A request that submits no form leaves the database as it was, unless
    it is the deletion of a post: [delete_post] is the one view that writes
    on a plain GET, and for the privileged principal and an existing post
    it does change the database. *)
Theorem unsubmitted_requests_read_only (r : Request) (st : State) :
  submits r = false ->
  ((forall post_id, r <> DeletePost post_id) ->
   db (snd (dispatch r st)) = db st) /\
  (forall post_id u post,
     r = DeletePost post_id ->
     current_user st = Authenticated u -> User.id u = 1 ->
     BlogPost_query_get (db st) post_id = Some post ->
     blog_posts (db (snd (dispatch r st))) <> blog_posts (db st)).
Proof.
  intros Hs. split.
  - intros Hnd. destruct r; simpl in *; try reflexivity.
    + unfold register. now rewrite (not_submitted form Hs).
    + apply login_db.
    + apply logout_db.
    + now rewrite (show_post_not_submitted _ _ _ (not_submitted _ Hs)).
    + unfold make_post.
      apply (admin_only_preserves (fun st st' => db st' = db st));
        [reflexivity|].
      now rewrite (not_submitted forms Hs).
    + unfold edit_post.
      apply (admin_only_preserves (fun st st' => db st' = db st));
        [reflexivity|].
      destruct (BlogPost_query_get (db st) post_id); [|reflexivity].
      unfold prefill. rewrite Hs.
      unfold validate_on_submit. simpl. now rewrite Hs.
    + now destruct (Hnd post_id).
  - intros post_id u post -> Hu Hid Hp. simpl.
    rewrite (delete_post_admin post_id st u Hu Hid), Hp. simpl.
    destruct (BlogPost_query_get_key _ _ _ Hp) as [Hin Hkey].
    intros E. rewrite <- E in Hin. apply filter_In in Hin.
    destruct Hin as [_ Hin]. now rewrite Z.eqb_refl in Hin.
Qed.

(** No sequence of requests removes or changes a row of [user]: the table
    after the requests is the table before, followed by the accounts
    registered in between. *)
Theorem users_never_change (rs : list Request) (st : State) :
  exists registered_since,
    users (db (serve rs st)) = users (db st) ++ registered_since.
Proof.
  revert st. induction rs as [|r rs IH]; intros st; simpl.
  - exists []. now rewrite app_nil_r.
  - destruct (IH (snd (dispatch r st))) as [l ->].
    destruct (dispatch_users r st) as [-> | (form & salt & _ & ->)].
    + now exists l.
    + exists (new_user form salt st :: l). now rewrite <- app_assoc.
Qed.

Lemma dispatch_comments (r : Request) (st : State) :
  exists cs added,
    comments (db (snd (dispatch r st))) = cs ++ added /\
    Forall2 kept (comments (db st)) cs.
Proof.
  destruct (dispatch_db_step r st)
    as [E | form salt _ E | u index text _ E | u forms now _ _ _ E
        | u post_id post fields _ _ _ E | u post_id post _ _ _ E].
  - exists (comments (db st)), []. rewrite E, app_nil_r. split; trivial.
    apply kept_refl.
  - exists (comments (db st)), []. rewrite E, app_nil_r. split; trivial.
    apply kept_refl.
  - rewrite E. simpl. eexists. eexists. split; [reflexivity|]. apply kept_refl.
  - exists (comments (db st)), []. rewrite E, app_nil_r. split; trivial.
    apply kept_refl.
  - apply update_blog_post_edited in E. destruct E as (_ & -> & _).
    exists (comments (db st)), []. rewrite app_nil_r. split; trivial.
    apply kept_refl.
  - rewrite E. simpl. eexists. exists []. rewrite app_nil_r.
    split; [reflexivity|]. apply kept_detach.
Qed.

(** No sequence of requests deletes a comment or changes its key, author
    or text: the comments present before are still there, in their places,
    followed by the comments added in between. *)
Theorem comments_never_deleted (rs : list Request) (st : State) :
  exists cs added,
    comments (db (serve rs st)) = cs ++ added /\
    Forall2 kept (comments (db st)) cs.
Proof.
  revert st. induction rs as [|r rs IH]; intros st; simpl.
  - exists (comments (db st)), []. rewrite app_nil_r. split; trivial.
    apply kept_refl.
  - destruct (IH (snd (dispatch r st))) as (cs2 & l2 & E2 & K2).
    destruct (dispatch_comments r st) as (cs1 & l1 & E1 & K1).
    rewrite E1 in K2. apply Forall2_app_inv_l in K2.
    destruct K2 as (cs2a & cs2b & Ka & Kb & ->).
    exists cs2a, (cs2b ++ l2). split.
    + now rewrite E2, app_assoc.
    + now apply kept_trans with cs1.
Qed.

(** [logout] (with [login_required]): whoever calls it is anonymous
    afterwards and the database is untouched; an anonymous caller is
    answered 401 with the state as it was, an authenticated one is
    redirected to the post listing with the session cleared. *)
Theorem logout_leaves_anonymous (st : State) :
  current_user (snd (logout st)) = AnonymousUserMixin /\
  db (snd (logout st)) = db st /\
  (current_user st = AnonymousUserMixin ->
   snd (logout st) = st /\
   exists description, fst (logout st) = abort 401 description) /\
  (forall u, current_user st = Authenticated u ->
   logout st = (redirect ep_get_all_posts, logout_user st) /\
   session (snd (logout st)) = None).
Proof.
  unfold logout, login_required.
  destruct (current_user st) as [u|] eqn:Hu; simpl; repeat split;
    try discriminate; trivial.
  now eexists.
Qed.

(** Every account of a reachable state is found again by both lookups of
    the application: the user loader finds it by its key and the query of
    [register] and [login] finds it by its email. *)
Theorem accounts_found_by_key_and_email (st : State) (u : User.t) :
  reachable st -> In u (users (db st)) ->
  load_user (db st) (User.id u) = Some u /\
  User_query_filter_by_email_first (db st) (User.email u) = Some u.
Proof.
  intros Hr Hin. destruct (reachable_users_unique st Hr) as [Hk He]. split.
  - now apply (find_by_unique_key User.id).
  - now apply find_by_unique_email.
Qed.

End OverTime.

(** ** The integrity every request maintains *)

Lemma fold_max_init (b : Z) (l : list Z) :
  0 <= b -> fold_right Z.max b l = Z.max b (fold_right Z.max 0 l).
Proof. intros Hb. induction l as [|a l IH]; simpl; lia. Qed.

Lemma keys_upto_succ (n : nat) :
  keys_upto (S n) = keys_upto n ++ [Z.of_nat (S n)].
Proof. unfold keys_upto. now rewrite seq_S, map_app. Qed.

Lemma next_id_keys_upto (n : nat) : next_id (keys_upto n) = Z.of_nat (S n).
Proof.
  unfold next_id. induction n as [|n IH].
  - reflexivity.
  - rewrite keys_upto_succ, fold_right_app. simpl fold_right at 2.
    rewrite fold_max_init by lia. lia.
Qed.

Lemma NoDup_snoc {A} (l : list A) (x : A) :
  NoDup l -> ~ In x l -> NoDup (l ++ [x]).
Proof.
  intros Hl Hx. apply NoDup_app; [exact Hl | repeat constructor; simpl; tauto |].
  intros y Hy [<- | []]. now apply Hx.
Qed.

Lemma NoDup_map_filter {A B} (f : A -> B) (q : A -> bool) (l : list A) :
  NoDup (map f l) -> NoDup (map f (filter q l)).
Proof.
  induction l as [|a l IH]; simpl; [trivial|].
  intros H. inversion H as [|x xs Hnotin Hnd]; subst.
  destruct (q a); simpl; [|now apply IH].
  constructor; [|now apply IH].
  intros Hin. apply Hnotin. apply in_map_iff in Hin.
  destruct Hin as (b & Eb & Hb). apply filter_In in Hb.
  rewrite <- Eb. apply in_map. tauto.
Qed.

Lemma NoDup_map_injective {A B} (f : A -> B) (l : list A) (a b : A) :
  NoDup (map f l) -> In a l -> In b l -> f a = f b -> a = b.
Proof.
  induction l as [|c l IH]; simpl; [tauto|].
  intros H. inversion H as [|x xs Hnotin Hnd]; subst.
  intros [-> | Ha] [-> | Hb] E; trivial.
  - destruct Hnotin. rewrite E. now apply in_map.
  - destruct Hnotin. rewrite <- E. now apply in_map.
  - now apply IH.
Qed.

(** The row [update_blog_post] writes for the object [post]. *)
Lemma update_blog_post_rows (d d' : Database) (post : BlogPost.t) :
  update_blog_post d post = inr d' ->
  (forall p, In p (blog_posts d) -> BlogPost.id p <> BlogPost.id post ->
             BlogPost.title p <> BlogPost.title post) /\
  d' = mkDatabase
         (users d)
         (map (fun p => if BlogPost.id p =? BlogPost.id post
                        then assign_post p (BlogPost.title post)
                                         (BlogPost.subtitle post)
                                         (BlogPost.img_url post)
                                         (BlogPost.author_id post)
                                         (BlogPost.body post)
                        else p) (blog_posts d))
         (comments d).
Proof.
  unfold update_blog_post. destruct (existsb _ _) eqn:Ex; [discriminate|].
  intros [= <-]. split; [|reflexivity].
  intros p Hin Hid Ht. apply (existsb_false_forall _ _ Ex) in Hin.
  simpl in Hin. apply Z.eqb_neq in Hid.
  now rewrite Hid, Ht, String.eqb_refl in Hin.
Qed.

Lemma titles_after_update (l : list BlogPost.t) (post : BlogPost.t) :
  NoDup (map BlogPost.id l) -> NoDup (map BlogPost.title l) ->
  (forall p, In p l -> BlogPost.id p <> BlogPost.id post ->
             BlogPost.title p <> BlogPost.title post) ->
  NoDup (map BlogPost.title
             (map (fun p => if BlogPost.id p =? BlogPost.id post
                            then assign_post p (BlogPost.title post)
                                             (BlogPost.subtitle post)
                                             (BlogPost.img_url post)
                                             (BlogPost.author_id post)
                                             (BlogPost.body post)
                            else p) l)).
Proof.
  set (g := fun p => if BlogPost.id p =? BlogPost.id post then _ else p).
  assert (Hg : forall p, BlogPost.title (g p) = BlogPost.title p \/
                         (BlogPost.id p = BlogPost.id post /\
                          BlogPost.title (g p) = BlogPost.title post)).
  { intros p. unfold g. destruct (BlogPost.id p =? BlogPost.id post) eqn:E.
    - right. apply Z.eqb_eq in E. now split.
    - now left. }
  induction l as [|a l IH]; simpl; [constructor|].
  intros Hk Ht Hother.
  inversion Hk as [|k ks Hknot Hk']; subst.
  inversion Ht as [|t ts Htnot Ht']; subst.
  constructor; [|apply IH; trivial; intros p Hp; apply Hother; now right].
  intros Hin. apply in_map_iff in Hin. destruct Hin as (q' & Eq & Hq').
  apply in_map_iff in Hq'. destruct Hq' as (q & <- & Hq).
  assert (Hqa : BlogPost.id q <> BlogPost.id a).
  { intros E. apply Hknot. rewrite <- E. now apply in_map. }
  destruct (Hg q) as [Eq1 | [Eq1 Eq2]], (Hg a) as [Ea1 | [Ea1 Ea2]].
  - apply Htnot. rewrite <- Ea1, <- Eq, Eq1. now apply in_map.
  - apply (Hother q); [now right | congruence | congruence].
  - apply (Hother a); [now left | congruence | congruence].
  - congruence.
Qed.

Lemma refers_mono (d d' : Database) (c : Comment.t) :
  (forall u, In u (users d) -> In u (users d')) ->
  (forall p, In p (blog_posts d) ->
             exists p', In p' (blog_posts d') /\ BlogPost.id p' = BlogPost.id p) ->
  refers d c -> refers d' c.
Proof.
  intros Hu Hp [(u & Hin & Ea) Hpost]. split.
  - exists u. split; [now apply Hu | exact Ea].
  - destruct Hpost as [En | (p & Hinp & Ep)]; [now left|].
    right. destruct (Hp p Hinp) as (p' & Hin' & E').
    exists p'. split; [exact Hin' | now rewrite E'].
Qed.

Lemma map_map_same {A B} (f : A -> B) (g : A -> A) (l : list A) :
  (forall x, f (g x) = f x) -> map f (map g l) = map f l.
Proof. intros H. rewrite map_map. now apply map_ext. Qed.

Lemma db_ok_create_all : db_ok create_all.
Proof.
  constructor; simpl;
    [reflexivity | constructor | constructor | constructor | constructor
     | intros c []].
Qed.

Section Integrity.
Context {hashing : PasswordHashing}.

Lemma db_step_ok (st : State) (d' : Database) :
  db_ok (db st) -> db_step st d' -> db_ok d'.
Proof.
  intros [Hk He Hpk Hpt Hck Hc]
         [E | form salt Hnone E | u index text Hu E | u forms now Hu Hid Hfresh E
          | u post_id post fields Hu Hid Hp E | u post_id post Hu Hid Hp E].
  - rewrite E. now constructor.
  - rewrite E. constructor; simpl; trivial.
    + rewrite map_app, length_app, Nat.add_comm. simpl.
      now rewrite keys_upto_succ, Hk, next_id_keys_upto.
    + rewrite map_app. simpl. apply NoDup_snoc; [exact He|].
      intros Hin. apply in_map_iff in Hin. destruct Hin as (v & Ev & Hv).
      apply (find_none _ _ Hnone) in Hv. simpl in Hv.
      rewrite Ev, String.eqb_refl in Hv. discriminate.
    + intros c Hin. apply (refers_mono (db st)); simpl; auto.
      * intros v Hv. apply in_or_app. now left.
      * intros p Hin'. now exists p.
  - rewrite E. constructor; simpl; trivial.
    + rewrite map_app. simpl. apply NoDup_snoc; [exact Hck | apply next_id_fresh].
    + intros c Hin. apply in_app_or in Hin. destruct Hin as [Hin | [<- | []]].
      * apply (refers_mono (db st)); simpl; auto. intros p Hin'. now exists p.
      * split; simpl.
        -- exists u. split; [|reflexivity]. now apply current_user_sound.
        -- destruct (BlogPost_query_get (db st) index) as [p|] eqn:Eg;
             [|now left].
           right. exists p. split; [|reflexivity].
           now apply BlogPost_query_get_key in Eg.
  - rewrite E. constructor; simpl; trivial.
    + rewrite map_app. simpl. apply NoDup_snoc; [exact Hpk | apply next_id_fresh].
    + rewrite map_app. simpl. apply NoDup_snoc; [exact Hpt|].
      intros Hin. apply in_map_iff in Hin. destruct Hin as (p & Et & Hin).
      now apply (Hfresh p Hin).
    + intros c Hin. apply (refers_mono (db st)); simpl; auto.
      intros p Hin'. exists p. split; [|reflexivity]. apply in_or_app. now left.
  - remember (assign_post post (CreatePostForm.title fields)
                          (CreatePostForm.subtitle fields)
                          (CreatePostForm.img_url fields)
                          (CreatePostForm.author fields)
                          (CreatePostForm.body fields)) as post' eqn:Epost'.
    apply update_blog_post_rows in E. destruct E as [Hother ->].
    constructor; simpl; trivial.
    + rewrite map_map_same; [exact Hpk|].
      intros p. now destruct (BlogPost.id p =? _).
    + now apply titles_after_update.
    + intros c Hin. apply (refers_mono (db st)); simpl; auto.
      intros p Hin'. eexists. split; [apply in_map, Hin'|].
      simpl. now destruct (BlogPost.id p =? _).
  - rewrite E. constructor; simpl; trivial.
    + now apply NoDup_map_filter.
    + now apply NoDup_map_filter.
    + rewrite map_map_same; [exact Hck|].
      intros c. unfold detach_comment. now destruct (opt_eqb _ _).
    + intros c' Hin. apply in_map_iff in Hin. destruct Hin as (c & <- & Hin).
      destruct (Hc c Hin) as [(v & Hv & Ea) Hpost]. unfold detach_comment.
      destruct (opt_eqb (Comment.post_id c) (Some (BlogPost.id post))) eqn:Eo.
      * split; simpl; [now exists v | now left].
      * split; [now exists v|].
        destruct Hpost as [En | (p & Hinp & Ep)]; [now left|].
        right. exists p. split; [|exact Ep]. simpl. apply filter_In.
        split; [exact Hinp|]. rewrite Ep in Eo. simpl in Eo. now rewrite Eo.
Qed.

Lemma reachable_db_ok (st : State) : reachable st -> db_ok (db st).
Proof.
  induction 1 as [|r st Hr IH]; [apply db_ok_create_all|].
  apply (db_step_ok st); [exact IH | apply dispatch_db_step].
Qed.

(** In every reachable state the accounts carry the keys 1, 2, ..., n in
    the order of their registration and pairwise distinct emails; so the
    privileged principal, of id 1, is the first account ever registered. *)
Theorem accounts_numbered_in_order (st : State) :
  reachable st ->
  map User.id (users (db st)) = keys_upto (List.length (users (db st))) /\
  NoDup (map User.email (users (db st))) /\
  (forall u, In u (users (db st)) -> User.id u = 1 ->
             exists later, users (db st) = u :: later).
Proof.
  intros Hr. destruct (reachable_db_ok st Hr) as [Hk He _ _ _ _].
  split; [exact Hk|]. split; [exact He|].
  intros u Hin Hid.
  assert (Hu : user_keys_unique (db st))
    by exact (proj1 (reachable_users_unique st Hr)).
  destruct (users (db st)) as [|a later] eqn:El; [destruct Hin|].
  exists later. f_equal. simpl in Hk. injection Hk as Ha _.
  unfold user_keys_unique in Hu. rewrite El in Hu.
  apply (NoDup_map_injective User.id (a :: later)); trivial; [now left|].
  now rewrite Hid.
Qed.

(** In every reachable state no two posts share a key or a title. *)
Theorem posts_stay_distinct (st : State) :
  reachable st ->
  NoDup (map BlogPost.id (blog_posts (db st))) /\
  NoDup (map BlogPost.title (blog_posts (db st))).
Proof.
  intros Hr. destruct (reachable_db_ok st Hr) as [_ _ Hpk Hpt _ _].
  now split.
Qed.

(** In every reachable state the comments carry distinct keys, the author
    of each is an existing account, and its parent post is either null or an
    existing post: no comment ever refers to a post that was deleted. *)
Theorem comments_stay_attached (st : State) :
  reachable st ->
  NoDup (map Comment.id (comments (db st))) /\
  (forall c, In c (comments (db st)) -> refers (db st) c).
Proof.
  intros Hr. destruct (reachable_db_ok st Hr) as [_ _ _ _ Hck Hc].
  now split.
Qed.

End Integrity.

(** ** Posts: what the admin's operations compose to *)

Lemma find_key_absent {A} (key : A -> Z) (k : Z) (l : list A) :
  ~ In k (map key l) -> find (fun x => key x =? k) l = None.
Proof.
  intros Hk. destruct (find _ l) as [a|] eqn:E; [|reflexivity].
  apply find_key_sound in E. destruct E as [Hin <-].
  destruct Hk. now apply in_map.
Qed.

Lemma find_map_key {A} (key : A -> Z) (g : A -> A) (k : Z) (l : list A) :
  (forall x, key (g x) = key x) ->
  find (fun x => key x =? k) (map g l) =
  option_map g (find (fun x => key x =? k) l).
Proof.
  intros Hg. induction l as [|a l IH]; simpl; [reflexivity|].
  rewrite Hg. now destruct (key a =? k).
Qed.

Lemma current_user_commit (d : Database) (st : State) :
  users d = users (db st) -> current_user (commit d st) = current_user st.
Proof.
  intros E. unfold current_user, load_user, User_query_get. simpl.
  now rewrite E.
Qed.

Lemma assign_post_same (post : BlogPost.t) :
  assign_post post (BlogPost.title post) (BlogPost.subtitle post)
              (BlogPost.img_url post) (BlogPost.author_id post)
              (BlogPost.body post) = post.
Proof. now destruct post. Qed.

Lemma prefill_submitted (post : BlogPost.t) (form : Form CreatePostForm.t) :
  validate_on_submit form = true -> prefill post form = form.
Proof.
  unfold validate_on_submit, prefill. intros H.
  apply andb_true_iff in H. now rewrite (proj1 H).
Qed.

Lemma edit_post_admin (post_id : Z) (form : Form CreatePostForm.t)
    (st : State) (u : User.t) (post : BlogPost.t) :
  current_user st = Authenticated u -> User.id u = 1 ->
  BlogPost_query_get (db st) post_id = Some post ->
  validate_on_submit form = true ->
  edit_post post_id form st =
  match update_blog_post (db st)
          (assign_post post (CreatePostForm.title (data form))
                       (CreatePostForm.subtitle (data form))
                       (CreatePostForm.img_url (data form))
                       (CreatePostForm.author (data form))
                       (CreatePostForm.body (data form))) with
  | inl e => (raise e, st)
  | inr d => (redirect (ep_show_post post_id), commit d st)
  end.
Proof.
  intros Hu Hid Hp Hv. unfold edit_post.
  rewrite (admin_only_admin _ st u Hu Hid), Hp.
  now rewrite (prefill_submitted post form Hv), Hv.
Qed.

Lemma update_blog_post_commits (d : Database) (post : BlogPost.t) :
  (forall p, In p (blog_posts d) -> BlogPost.id p <> BlogPost.id post ->
             BlogPost.title p <> BlogPost.title post) ->
  exists d', update_blog_post d post = inr d'.
Proof.
  intros Hother. unfold update_blog_post.
  destruct (existsb _ _) eqn:Ex; [|now eexists].
  apply existsb_exists in Ex. destruct Ex as (p & Hin & Hp).
  apply andb_true_iff in Hp. destruct Hp as [Hid Ht].
  apply negb_true_iff, Z.eqb_neq in Hid. apply String.eqb_eq in Ht.
  now destruct (Hother p Hin Hid).
Qed.

Lemma make_post_lookup (forms : Form CreatePostForm.t) (now : datetime)
    (st : State) :
  BlogPost_query_get
    (mkDatabase (users (db st))
                (blog_posts (db st) ++ [new_post forms now st])
                (comments (db st)))
    (BlogPost.id (new_post forms now st)) = Some (new_post forms now st).
Proof.
  unfold BlogPost_query_get. simpl blog_posts. rewrite find_app.
  rewrite (find_key_absent BlogPost.id); [|apply next_id_fresh].
  simpl. now rewrite Z.eqb_refl.
Qed.

(** [make_post] with a title some post already carries: the commit fails
    on the unique constraint of [title] and nothing is stored. *)
Theorem make_post_duplicate_title (forms : Form CreatePostForm.t)
    (now : datetime) (st : State) (u : User.t) (p : BlogPost.t) :
  current_user st = Authenticated u -> User.id u = 1 ->
  validate_on_submit forms = true ->
  In p (blog_posts (db st)) ->
  BlogPost.title p = CreatePostForm.title (data forms) ->
  make_post forms now st = (raise IntegrityError, st).
Proof.
  intros Hu Hid Hv Hin Ht. unfold make_post.
  rewrite (admin_only_admin _ st u Hu Hid), Hv, Hu. simpl.
  unfold add_blog_post.
  destruct (existsb _ _) eqn:Ex; [reflexivity|].
  apply (existsb_false_forall _ _ Ex) in Hin. simpl in Hin.
  rewrite Ht, String.eqb_refl in Hin. discriminate.
Qed.

(** After a successful [make_post] the new post is found under its key,
    its author is the principal who created it, and every post that could
    be looked up before is still found, unchanged. *)
Theorem make_post_then_lookup (forms : Form CreatePostForm.t)
    (now : datetime) (st : State) (u : User.t) :
  current_user st = Authenticated u -> User.id u = 1 ->
  validate_on_submit forms = true ->
  (forall p, In p (blog_posts (db st)) ->
             BlogPost.title p <> CreatePostForm.title (data forms)) ->
  let st' := snd (make_post forms now st) in
  BlogPost_query_get (db st') (BlogPost.id (new_post forms now st)) =
  Some (new_post forms now st) /\
  BlogPost.author_id (new_post forms now st) = Some (User.id u) /\
  BlogPost.title (new_post forms now st) = CreatePostForm.title (data forms) /\
  (forall index p, BlogPost_query_get (db st) index = Some p ->
                   BlogPost_query_get (db st') index = Some p).
Proof.
  intros Hu Hid Hv Hfresh st'. unfold st'.
  rewrite (make_post_admin forms now st u Hu Hid Hv Hfresh). simpl.
  split; [apply make_post_lookup|]. split; [now rewrite Hid|].
  split; [reflexivity|].
  intros index p Hp. unfold BlogPost_query_get in *. simpl.
  now rewrite find_app, Hp.
Qed.

(** The two ways [edit_post] fails for the privileged principal: with no
    post of the key, [post.title] raises [AttributeError]; with a title
    another post carries, the commit fails on the unique constraint.  In
    both cases nothing is stored. *)
Theorem edit_post_errors (post_id : Z) (form : Form CreatePostForm.t)
    (st : State) (u : User.t) :
  current_user st = Authenticated u -> User.id u = 1 ->
  (BlogPost_query_get (db st) post_id = None ->
   edit_post post_id form st = (raise AttributeError, st)) /\
  (forall post other,
     BlogPost_query_get (db st) post_id = Some post ->
     validate_on_submit form = true ->
     In other (blog_posts (db st)) -> BlogPost.id other <> post_id ->
     BlogPost.title other = CreatePostForm.title (data form) ->
     edit_post post_id form st = (raise IntegrityError, st)).
Proof.
  intros Hu Hid. split.
  - intros Hp. unfold edit_post.
    now rewrite (admin_only_admin _ st u Hu Hid), Hp.
  - intros post other Hp Hv Hin Hne Ht.
    rewrite (edit_post_admin post_id form st u post Hu Hid Hp Hv).
    unfold update_blog_post.
    destruct (existsb _ _) eqn:Ex; [reflexivity|].
    apply (existsb_false_forall _ _ Ex) in Hin. simpl in Hin.
    destruct (BlogPost_query_get_key _ _ _ Hp) as [_ Hkey].
    rewrite Hkey, Ht, String.eqb_refl in Hin.
    apply Z.eqb_neq in Hne. now rewrite Hne in Hin.
Qed.

(** After a successful [edit_post] the post is found under its key with
    the five submitted fields and its old key and publish-date, and the
    lookup of every other key gives what it gave before. *)
Theorem edit_post_then_lookup (post_id : Z) (form : Form CreatePostForm.t)
    (st : State) (u : User.t) (post : BlogPost.t) :
  current_user st = Authenticated u -> User.id u = 1 ->
  BlogPost_query_get (db st) post_id = Some post ->
  validate_on_submit form = true ->
  (forall p, In p (blog_posts (db st)) -> BlogPost.id p <> post_id ->
             BlogPost.title p <> CreatePostForm.title (data form)) ->
  let st' := snd (edit_post post_id form st) in
  fst (edit_post post_id form st) = redirect (ep_show_post post_id) /\
  BlogPost_query_get (db st') post_id =
  Some (BlogPost.mk post_id
                    (CreatePostForm.title (data form))
                    (CreatePostForm.subtitle (data form))
                    (BlogPost.date post)
                    (CreatePostForm.body (data form))
                    (CreatePostForm.img_url (data form))
                    (CreatePostForm.author (data form))) /\
  (forall index, index <> post_id ->
                 BlogPost_query_get (db st') index =
                 BlogPost_query_get (db st) index).
Proof.
  intros Hu Hid Hp Hv Hother st'. unfold st'.
  rewrite (edit_post_admin post_id form st u post Hu Hid Hp Hv).
  destruct (BlogPost_query_get_key _ _ _ Hp) as [Hin Hkey].
  remember (assign_post post (CreatePostForm.title (data form))
                        (CreatePostForm.subtitle (data form))
                        (CreatePostForm.img_url (data form))
                        (CreatePostForm.author (data form))
                        (CreatePostForm.body (data form))) as post' eqn:Epost'.
  assert (Hid' : BlogPost.id post' = post_id) by now rewrite Epost'.
  destruct (update_blog_post_commits (db st) post') as [d' Hup].
  { rewrite Hid'. intros p Hinp Hne. rewrite Epost'. now apply Hother. }
  rewrite Hup. simpl. apply update_blog_post_rows in Hup.
  destruct Hup as [_ ->]. unfold BlogPost_query_get in *. simpl blog_posts.
  split; [reflexivity|].
  rewrite Hid'. split.
  - rewrite (find_map_key BlogPost.id);
      [|intros p; now destruct (BlogPost.id p =? post_id)].
    rewrite Hp. simpl. rewrite Hkey, Z.eqb_refl, Epost'.
    unfold assign_post. simpl. now rewrite Hkey.
  - intros index Hne.
    rewrite (find_map_key BlogPost.id);
      [|intros p; now destruct (BlogPost.id p =? post_id)].
    destruct (find (fun x => BlogPost.id x =? index) (blog_posts (db st)))
      as [p|] eqn:Ef; [|reflexivity].
    simpl. apply find_key_sound in Ef. destruct Ef as [_ Ek].
    rewrite Ek. apply Z.eqb_neq in Hne. now rewrite Hne.
Qed.

Lemma delete_blog_post_gone (d : Database) (post : BlogPost.t) :
  BlogPost_query_get (delete_blog_post d post) (BlogPost.id post) = None.
Proof.
  unfold BlogPost_query_get. simpl.
  rewrite (find_filter_key BlogPost.id). now rewrite Z.eqb_refl.
Qed.

Lemma filter_all {A} (q : A -> bool) (l : list A) :
  (forall x, In x l -> q x = true) -> filter q l = l.
Proof.
  induction l as [|a l IH]; simpl; [reflexivity|].
  intros H. rewrite (H a) by now left. f_equal. apply IH.
  intros x Hx. apply H. now right.
Qed.

Lemma map_unchanged {A} (g : A -> A) (l : list A) :
  (forall x, In x l -> g x = x) -> map g l = l.
Proof.
  induction l as [|a l IH]; simpl; [reflexivity|].
  intros H. rewrite (H a) by now left. f_equal. apply IH.
  intros x Hx. apply H. now right.
Qed.

(** Deleting the same post twice: the second request finds no post of the
    key, raises, and leaves the state the first one produced. *)
Theorem delete_post_twice (post_id : Z) (st : State) (u : User.t)
    (post : BlogPost.t) :
  current_user st = Authenticated u -> User.id u = 1 ->
  BlogPost_query_get (db st) post_id = Some post ->
  let st' := snd (delete_post post_id st) in
  delete_post post_id st' = (raise UnmappedInstanceError, st').
Proof.
  intros Hu Hid Hp st'. unfold st'.
  rewrite (delete_post_admin post_id st u Hu Hid), Hp. simpl.
  rewrite (delete_post_admin post_id _ u);
    [|now rewrite current_user_commit | exact Hid].
  destruct (BlogPost_query_get_key _ _ _ Hp) as [_ Hkey].
  simpl db. rewrite <- Hkey at 1. now rewrite delete_blog_post_gone.
Qed.

Section RoundTrips.
Context {hashing : PasswordHashing}.

(** Opening the edit form of a post and submitting it back untouched
    changes nothing: in a reachable state the form shown for a GET holds
    the five fields of the post, and posting these fields is accepted and
    leaves the whole state as it was. *)
Theorem edit_post_resubmit (post_id : Z) (form : Form CreatePostForm.t)
    (st : State) (u : User.t) (post : BlogPost.t) :
  reachable st ->
  current_user st = Authenticated u -> User.id u = 1 ->
  BlogPost_query_get (db st) post_id = Some post ->
  method form = GET ->
  exists shown,
    edit_post post_id form st =
    (render_template (make_post_html shown true true), st) /\
    data shown =
    CreatePostForm.mk (BlogPost.title post) (BlogPost.subtitle post)
                      (BlogPost.img_url post) (BlogPost.author_id post)
                      (BlogPost.body post) /\
    edit_post post_id (mkForm POST (data shown) true) st =
    (redirect (ep_show_post post_id), st).
Proof.
  intros Hr Hu Hid Hp Hm.
  destruct (reachable_db_ok st Hr) as [_ _ Hpk Hpt _ _].
  destruct (BlogPost_query_get_key _ _ _ Hp) as [Hin Hkey].
  exists (prefill post form). split; [|split].
  - unfold edit_post. rewrite (admin_only_admin _ st u Hu Hid), Hp.
    unfold prefill, validate_on_submit. now rewrite Hm.
  - unfold prefill. now rewrite Hm.
  - replace (data (prefill post form))
      with (CreatePostForm.mk (BlogPost.title post) (BlogPost.subtitle post)
                              (BlogPost.img_url post) (BlogPost.author_id post)
                              (BlogPost.body post))
      by (unfold prefill; now rewrite Hm).
    rewrite (edit_post_admin
               post_id
               (mkForm POST
                       (CreatePostForm.mk
                          (BlogPost.title post) (BlogPost.subtitle post)
                          (BlogPost.img_url post) (BlogPost.author_id post)
                          (BlogPost.body post)) true)
               st u post Hu Hid Hp eq_refl).
    cbn [data CreatePostForm.title CreatePostForm.subtitle
         CreatePostForm.img_url CreatePostForm.author CreatePostForm.body].
    rewrite assign_post_same.
    destruct (update_blog_post (db st) post) as [e|d'] eqn:Hup.
    + destruct (update_blog_post_commits (db st) post) as [d' Hd'];
        [|rewrite Hd' in Hup; discriminate Hup].
      intros p Hinp Hne Ht. apply Hne. f_equal.
      now apply (NoDup_map_injective BlogPost.title (blog_posts (db st))).
    + apply update_blog_post_rows in Hup. destruct Hup as [_ ->].
      rewrite map_unchanged.
      * replace (mkDatabase (users (db st)) (blog_posts (db st))
                            (comments (db st))) with (db st)
          by now destruct (db st).
        now rewrite commit_same.
      * intros p Hinp. destruct (BlogPost.id p =? BlogPost.id post) eqn:E;
          [|reflexivity].
        apply Z.eqb_eq in E.
        rewrite (NoDup_map_injective BlogPost.id _ p post Hpk Hinp Hin E).
        apply assign_post_same.
Qed.

(** Creating a post and deleting it right away gives back the state before
    the creation, in every reachable state: the listing, the comments and
    the accounts are as they were. *)
Theorem make_then_delete_round_trip (forms : Form CreatePostForm.t)
    (now : datetime) (st : State) (u : User.t) :
  reachable st ->
  current_user st = Authenticated u -> User.id u = 1 ->
  validate_on_submit forms = true ->
  (forall p, In p (blog_posts (db st)) ->
             BlogPost.title p <> CreatePostForm.title (data forms)) ->
  let created := snd (make_post forms now st) in
  delete_post (BlogPost.id (new_post forms now st)) created =
  (redirect ep_get_all_posts, st).
Proof.
  intros Hr Hu Hid Hv Hfresh created. unfold created.
  destruct (reachable_db_ok st Hr) as [_ _ _ _ _ Hc].
  rewrite (make_post_admin forms now st u Hu Hid Hv Hfresh). simpl snd.
  rewrite (delete_post_admin _ _ u);
    [|now rewrite current_user_commit | exact Hid].
  simpl db. rewrite make_post_lookup. f_equal.
  assert (Hfreshkey : forall p, In p (blog_posts (db st)) ->
                      BlogPost.id p <> BlogPost.id (new_post forms now st)).
  { intros p Hin E. apply (next_id_fresh (map BlogPost.id (blog_posts (db st)))).
    simpl in E. rewrite <- E. now apply in_map. }
  unfold delete_blog_post, commit. simpl.
  rewrite filter_app. simpl. rewrite Z.eqb_refl. simpl. rewrite app_nil_r.
  rewrite filter_all.
  - rewrite map_unchanged; [now destruct st as [[? ? ?] ? ?]|].
    intros c Hin. unfold detach_comment.
    destruct (opt_eqb _ _) eqn:Eo; [|reflexivity]. exfalso.
    destruct (Hc c Hin) as [_ [En | (p & Hinp & Ep)]].
    + now rewrite En in Eo.
    + rewrite Ep in Eo. simpl in Eo. apply Z.eqb_eq in Eo.
      now apply (Hfreshkey p Hinp).
  - intros p Hin. apply negb_true_iff, Z.eqb_neq.
    exact (Hfreshkey p Hin).
Qed.

End RoundTrips.

(** ** Accounts: what registration and login compose to *)

Section AccountsCompose.
Context {hashing : PasswordHashing}.

Lemma email_found_serve (rs : list Request) (st : State) (email : string)
    (u : User.t) :
  User_query_filter_by_email_first (db st) email = Some u ->
  User_query_filter_by_email_first (db (serve rs st)) email = Some u.
Proof.
  revert st. induction rs as [|r rs IH]; intros st H; simpl; [exact H|].
  apply IH. unfold User_query_filter_by_email_first in *.
  destruct (dispatch_users r st) as [-> | (form & salt & _ & ->)];
    [exact H|].
  now rewrite find_app, H.
Qed.

(** An email once registered is refused ever after: whatever requests are
    served in between, a later validated registration with that email
    stores nothing, flashes the notice and redirects to the login page. *)
Theorem register_twice (form again : Form RegisterForm.t)
    (salt salt' : string) (rs : list Request) (st : State) :
  validate_on_submit form = true ->
  User_query_filter_by_email_first
    (db st) (RegisterForm.email (data form)) = None ->
  validate_on_submit again = true ->
  RegisterForm.email (data again) = RegisterForm.email (data form) ->
  let st' := serve rs (snd (register form salt st)) in
  register again salt' st' =
  (redirect ep_login,
   flash "This email has been registered. Login with the email" st').
Proof.
  intros Hv Hfresh Hv' He st'.
  assert (Hfound : User_query_filter_by_email_first
                     (db st') (RegisterForm.email (data again))
                   = Some (new_user form salt st)).
  { apply email_found_serve. rewrite He.
    rewrite (register_fresh_email form salt st Hv Hfresh).
    unfold User_query_filter_by_email_first in *. simpl.
    rewrite find_app, Hfresh. simpl. now rewrite String.eqb_refl. }
  unfold register. now rewrite Hv', Hfound.
Qed.

(** On a fresh database the first account to register gets the key 1, so
    that after logging in with the password it registered it passes the
    admin gate: its validated post form is stored as the only post. *)
Theorem first_account_is_admin (reg : Form RegisterForm.t) (salt : string)
    (credentials : Form LoginForm.t) (forms : Form CreatePostForm.t)
    (now : datetime) :
  check_generate hashing ->
  validate_on_submit reg = true ->
  validate_on_submit credentials = true ->
  LoginForm.email (data credentials) = RegisterForm.email (data reg) ->
  LoginForm.password (data credentials) = RegisterForm.password (data reg) ->
  validate_on_submit forms = true ->
  let st := serve [Register reg salt; Login credentials] initial_state in
  current_user st = Authenticated (new_user reg salt initial_state) /\
  User.id (new_user reg salt initial_state) = 1 /\
  fst (make_post forms now st) = redirect ep_get_all_posts /\
  BlogPost_query_all (db (snd (make_post forms now st))) =
  [new_post forms now st].
Proof.
  intros Hlaw Hreg Hcred He Hp Hforms st.
  assert (Hst : st = login_user (new_user reg salt initial_state)
                       (commit (mkDatabase [new_user reg salt initial_state]
                                           [] []) initial_state)).
  { unfold st. simpl serve.
    rewrite (register_fresh_email reg salt initial_state Hreg eq_refl).
    simpl snd. unfold login. rewrite Hcred.
    unfold User_query_filter_by_email_first. simpl find.
    rewrite He, String.eqb_refl. simpl User.password.
    rewrite Hp, Hlaw. reflexivity. }
  assert (Hu : current_user st = Authenticated (new_user reg salt initial_state)).
  { rewrite Hst. reflexivity. }
  split; [exact Hu|]. split; [reflexivity|].
  rewrite (make_post_admin forms now st _ Hu eq_refl Hforms).
  - split; [reflexivity|]. rewrite Hst. reflexivity.
  - rewrite Hst. intros p [].
Qed.

(** In a reachable state every account but the first one is refused with
    403 on the three admin routes, and nothing is stored. *)
Theorem later_accounts_forbidden (st : State) (first u : User.t)
    (later : list User.t) :
  reachable st ->
  users (db st) = first :: later ->
  current_user st = Authenticated u ->
  In u later ->
  (forall forms now,
      make_post forms now st = (abort 403 "This page is not found at all", st)) /\
  (forall post_id form,
      edit_post post_id form st = (abort 403 "This page is not found at all", st)) /\
  (forall post_id,
      delete_post post_id st = (abort 403 "This page is not found at all", st)).
Proof.
  intros Hr Hl Hu Hin.
  destruct (reachable_db_ok st Hr) as [Hk _ _ _ _ _].
  assert (Hnd : NoDup (map User.id (users (db st))))
    by exact (proj1 (reachable_users_unique st Hr)).
  rewrite Hl in Hk, Hnd. simpl in Hk. injection Hk as Hfirst _.
  apply (admin_routes_forbidden st u Hu).
  intros Hid. inversion Hnd as [|k ks Hnotin _]; subst.
  apply Hnotin. rewrite Hfirst, <- Hid. now apply in_map.
Qed.

End AccountsCompose.

(** ** The further properties on the sample data *)

Lemma after_traffic_reachable : reachable (hashing := toy_hashing) after_traffic.
Proof. apply reachable_serve. constructor. Qed.

Lemma alice_session_reachable :
  reachable (hashing := toy_hashing) alice_session.
Proof. apply reachable_serve, after_traffic_reachable. Qed.

Lemma only_admin_changes_posts_witness :
  exists u, current_user as_admin = Authenticated u /\ User.id u = 1.
Proof.
  apply (only_admin_changes_posts (hashing := toy_hashing)
                                  (DeletePost 1) as_admin).
  simpl. discriminate.
Defined.

Lemma anonymous_cannot_write_content_witness :
  let r := ShowPost 1 (sample_comment_form POST) in
  comments (db (snd (dispatch (hashing := toy_hashing) r as_anonymous))) =
  [sample_comment1; sample_comment2].
Proof.
  intros r.
  exact (proj2 (anonymous_cannot_write_content
                  (hashing := toy_hashing) r as_anonymous eq_refl)).
Defined.

Lemma session_changes_only_by_login_logout_witness :
  (exists form, Logout = Login form) \/ Logout = Logout.
Proof.
  apply (session_changes_only_by_login_logout
           (hashing := toy_hashing) Logout as_admin).
  simpl. discriminate.
Defined.

Lemma unsubmitted_requests_read_only_witness :
  db (snd (dispatch (hashing := toy_hashing)
                    (ShowPost 1 (sample_comment_form GET)) as_alice))
  = sample_db /\
  blog_posts (db (snd (dispatch (hashing := toy_hashing)
                                (DeletePost 1) as_admin)))
  <> blog_posts sample_db.
Proof.
  split.
  - apply (unsubmitted_requests_read_only
             (hashing := toy_hashing)
             (ShowPost 1 (sample_comment_form GET)) as_alice eq_refl).
    intros post_id. discriminate.
  - exact (proj2 (unsubmitted_requests_read_only
                    (hashing := toy_hashing) (DeletePost 1) as_admin eq_refl)
                 1 sample_admin sample_post1 eq_refl eq_refl eq_refl eq_refl).
Defined.

Lemma logout_leaves_anonymous_witness :
  logout as_admin = (redirect ep_get_all_posts, as_anonymous) /\
  snd (logout as_anonymous) = as_anonymous.
Proof.
  split.
  - destruct (logout_leaves_anonymous as_admin) as (_ & _ & _ & Hauth).
    exact (proj1 (Hauth sample_admin eq_refl)).
  - destruct (logout_leaves_anonymous as_anonymous) as (_ & _ & Hanon & _).
    exact (proj1 (Hanon eq_refl)).
Defined.

Lemma accounts_found_by_key_and_email_witness :
  load_user (db after_traffic) 2 = Some sample_alice /\
  User_query_filter_by_email_first (db after_traffic) "a@x.com"
  = Some sample_alice.
Proof.
  apply (accounts_found_by_key_and_email
           (hashing := toy_hashing) after_traffic sample_alice).
  - exact after_traffic_reachable.
  - right. left. reflexivity.
Defined.

Lemma accounts_numbered_in_order_witness :
  map User.id (users (db after_traffic)) = [1; 2] /\
  exists later, users (db after_traffic) = sample_bob :: later.
Proof.
  destruct (accounts_numbered_in_order
              (hashing := toy_hashing) after_traffic after_traffic_reachable)
    as (Hk & _ & Hfirst).
  split; [exact Hk|].
  apply Hfirst; [left|]; reflexivity.
Defined.

Lemma posts_stay_distinct_witness :
  NoDup (map BlogPost.title (blog_posts (db after_traffic))).
Proof.
  exact (proj2 (posts_stay_distinct
                  (hashing := toy_hashing) after_traffic
                  after_traffic_reachable)).
Defined.

Lemma comments_stay_attached_witness :
  refers (db after_traffic) sample_comment_after.
Proof.
  destruct (comments_stay_attached
              (hashing := toy_hashing) after_traffic after_traffic_reachable)
    as (_ & Hc).
  apply Hc. left. reflexivity.
Defined.

Lemma make_post_duplicate_title_witness :
  let forms :=
    mkForm POST (CreatePostForm.mk "Hello" "again" "h2.png" None "<p>x</p>")
           true in
  make_post forms sample_now as_admin = (raise IntegrityError, as_admin).
Proof.
  intros forms.
  apply (make_post_duplicate_title forms sample_now as_admin sample_admin
                                   sample_post1); try reflexivity.
  left. reflexivity.
Defined.

Lemma make_post_then_lookup_witness :
  BlogPost_query_get
    (db (snd (make_post (sample_post_form POST) sample_now as_admin))) 3 =
  Some (BlogPost.mk 3 "Third" "sub" "April 05, 2024" "<p>3</p>" "t.png"
                    (Some 1)).
Proof.
  destruct (make_post_then_lookup (sample_post_form POST) sample_now as_admin
                                  sample_admin eq_refl eq_refl eq_refl)
    as (Hnew & _).
  - simpl. intros p [<- | [<- | []]]; discriminate.
  - exact Hnew.
Defined.

Lemma edit_post_errors_witness :
  edit_post 7 (sample_post_form POST) as_admin = (raise AttributeError, as_admin)
  /\
  edit_post 2 (mkForm POST (CreatePostForm.mk "Hello" "s" "i.png" None "b")
                      true) as_admin
  = (raise IntegrityError, as_admin).
Proof.
  split.
  - destruct (edit_post_errors 7 (sample_post_form POST) as_admin sample_admin
                               eq_refl eq_refl) as (Habsent & _).
    exact (Habsent eq_refl).
  - destruct (edit_post_errors
                2 (mkForm POST (CreatePostForm.mk "Hello" "s" "i.png" None "b")
                          true) as_admin sample_admin eq_refl eq_refl)
      as (_ & Hclash).
    apply (Hclash sample_post2 sample_post1); try reflexivity.
    + left. reflexivity.
    + simpl. lia.
Defined.

Lemma edit_post_then_lookup_witness :
  BlogPost_query_get
    (db (snd (edit_post 2 (sample_post_form POST) as_admin))) 2 =
  Some (BlogPost.mk 2 "Third" "sub" "May 17, 2024" "<p>3</p>" "t.png"
                    (Some 1)) /\
  BlogPost_query_get
    (db (snd (edit_post 2 (sample_post_form POST) as_admin))) 1 =
  Some sample_post1.
Proof.
  destruct (edit_post_then_lookup 2 (sample_post_form POST) as_admin
                                  sample_admin sample_post2
                                  eq_refl eq_refl eq_refl eq_refl)
    as (_ & Hnew & Hothers).
  - simpl. intros p [<- | [<- | []]] Hne; [discriminate | now destruct Hne].
  - split; [exact Hnew|]. rewrite Hothers; [reflexivity | lia].
Defined.

Lemma delete_post_twice_witness :
  delete_post 1 (snd (delete_post 1 as_admin)) =
  (raise UnmappedInstanceError, snd (delete_post 1 as_admin)).
Proof.
  exact (delete_post_twice 1 as_admin sample_admin sample_post1
                           eq_refl eq_refl eq_refl).
Defined.

Lemma edit_post_resubmit_witness :
  exists shown,
    CreatePostForm.title (data shown) = "Hello" /\
    edit_post 1 (mkForm POST (data shown) true) after_traffic =
    (redirect (ep_show_post 1), after_traffic).
Proof.
  destruct (edit_post_resubmit
              (hashing := toy_hashing) 1 (sample_post_form GET) after_traffic
              sample_bob
              (BlogPost.mk 1 "Hello" "first" "April 05, 2024" "<p>hi</p>"
                           "h.png" (Some 1))
              after_traffic_reachable eq_refl eq_refl eq_refl eq_refl)
    as (shown & _ & Hd & Hpost).
  exists shown. split; [now rewrite Hd | exact Hpost].
Defined.

Lemma make_then_delete_round_trip_witness :
  delete_post 3 (snd (make_post (sample_post_form POST) sample_now
                                after_traffic)) =
  (redirect ep_get_all_posts, after_traffic).
Proof.
  apply (make_then_delete_round_trip
           (hashing := toy_hashing) (sample_post_form POST) sample_now
           after_traffic sample_bob after_traffic_reachable
           eq_refl eq_refl eq_refl).
  simpl. intros p [<- | [<- | []]]; discriminate.
Defined.

Lemma register_twice_witness :
  let again := mkForm POST (RegisterForm.mk "Eve" "b@x.com" "pw9") true in
  let st' :=
    serve (hashing := toy_hashing)
          [Login (mkForm POST (LoginForm.mk "b@x.com" "pw2") true); Logout]
          (snd (register (hashing := toy_hashing) sample_register_bob
                         "saltsalt" initial_state)) in
  register (hashing := toy_hashing) again "abcdefgh" st' =
  (redirect ep_login,
   flash "This email has been registered. Login with the email" st').
Proof.
  intros again st'.
  exact (register_twice
           (hashing := toy_hashing) sample_register_bob again
           "saltsalt" "abcdefgh"
           [Login (mkForm POST (LoginForm.mk "b@x.com" "pw2") true); Logout]
           initial_state eq_refl eq_refl eq_refl eq_refl).
Defined.

Lemma first_account_is_admin_witness :
  let st :=
    serve (hashing := toy_hashing)
          [Register sample_register_bob "saltsalt";
           Login (mkForm POST (LoginForm.mk "b@x.com" "pw2") true)]
          initial_state in
  current_user st = Authenticated sample_bob /\
  map BlogPost.title
      (BlogPost_query_all
         (db (snd (make_post (sample_post_form POST) sample_now st)))) =
  ["Third"].
Proof.
  intros st.
  destruct (first_account_is_admin
              (hashing := toy_hashing) sample_register_bob "saltsalt"
              (mkForm POST (LoginForm.mk "b@x.com" "pw2") true)
              (sample_post_form POST) sample_now
              toy_hashing_law eq_refl eq_refl eq_refl eq_refl eq_refl)
    as (Hu & _ & _ & Hl).
  split; [exact Hu|]. fold st in Hl. now rewrite Hl.
Defined.

Lemma later_accounts_forbidden_witness :
  delete_post 1 alice_session =
  (abort 403 "This page is not found at all", alice_session).
Proof.
  destruct (later_accounts_forbidden
              (hashing := toy_hashing) alice_session sample_bob sample_alice
              [sample_alice] alice_session_reachable eq_refl eq_refl)
    as (_ & _ & Hd).
  - left. reflexivity.
  - exact (Hd 1).
Defined.
